(** * process_astrom.py: astrometry.net solution reports and WCS headers

    A shallow embedding of [postprocess/process_astrom.py] and the
    properties of its report parser ([parse_txt]), of the rotation/scale
    matrix derivation ([cd2cd]) and of the header builder ([build_hdr]).

    Conventions of the embedding.
    - Python floats are modelled by the real numbers of the Standard
      Library: arithmetic is exact; rounding, infinities and NaN of the
      binary64 format are outside the model.  A cell of a numpy array that
      received the quotient of a division by zero is the one non-finite
      value [NonFinite].
    - Python exceptions are values of [exn]; a computation that can raise is
      a [result].
    - Python dictionaries are finite maps from keys to [pyval]; a dictionary
      that is iterated over ([docs], [stuff]) is an association list in the
      order of its iteration, which is taken to be the order of insertion.
    - The wall clock read by [fits2day] is an explicit argument.
    - The header library is not part of the module.  A header is given by
      the WCS object it was generated from, its cards set by key and the
      values of its [COMMENT] cards.  Whether [to_header] accepts a WCS
      object is a parameter, [wcs_error]; a commentary value must be
      printable ASCII and is cut into cards of 72 characters; an assignment
      by key is modelled for the keys that are not commentary keywords. *)

From Stdlib Require Import Reals Lra Lia ZArith String Ascii List.
From stdpp Require Import base option list strings pretty gmap.

Local Open Scope string_scope.

(** ** Python values, exceptions and results *)

Inductive pyval : Type :=
| VNone
| VBool (b : bool)
| VInt (z : Z)
| VFloat (r : R)
| VStr (s : string)
| VList (l : list string).

(** [BareRaise] is the exception that the argument-less [raise] statement
    produces when no exception is being handled; [WcsError] is an exception
    of the WCS library, by its name. *)
Inductive exn : Type :=
| KeyError (k : string)
| IndexError
| ValueError
| TypeError
| ZeroDivisionError
| RecursionError
| BareRaise
| WcsError (name : string).

Inductive result (A : Type) : Type :=
| Ok (a : A)
| Raise (e : exn).
Arguments Ok {A} a.
Arguments Raise {A} e.

#[global] Instance result_ret : MRet result := fun A a => Ok a.
#[global] Instance result_bind : MBind result := fun A B f m =>
  match m with
  | Ok a => f a
  | Raise e => Raise e
  end.
#[global] Instance result_fmap : FMap result := fun A B f m =>
  match m with
  | Ok a => Ok (f a)
  | Raise e => Raise e
  end.

Definition is_ok {A} (m : result A) : bool :=
  match m with Ok _ => true | Raise _ => false end.

(** [d[k]] on a dictionary. *)
Definition getitem (d : gmap string pyval) (k : string) : result pyval :=
  match d !! k with
  | Some v => Ok v
  | None => Raise (KeyError k)
  end.

(** ** Numbers *)

(** Coercion of a Python number to a float; [bool] is a subtype of [int]. *)
Definition as_float (v : pyval) : result R :=
  match v with
  | VInt z => Ok (IZR z)
  | VFloat r => Ok r
  | VBool b => Ok (if b then 1%R else 0%R)
  | _ => Raise TypeError
  end.

(** True division [a / b] (the module imports [division] from
    [__future__]): a zero divisor raises [ZeroDivisionError]. *)
Definition py_truediv (a b : pyval) : result R :=
  x ← as_float a;
  match b with
  | VInt z => if (z =? 0)%Z then Raise ZeroDivisionError else Ok (x / IZR z)%R
  | VFloat r => if Req_dec_T r 0 then Raise ZeroDivisionError else Ok (x / r)%R
  | VBool true => Ok (x / 1)%R
  | VBool false => Raise ZeroDivisionError
  | _ => Raise TypeError
  end.

(** [math.radians]. *)
Definition radians (x : R) : R := (x * (PI / 180))%R.

(** A cell of a numpy array of floats. *)
Inductive np_float : Type :=
| Finite (r : R)
| NonFinite.

(** [x / d] for a numpy scalar [x] and a Python float [d]: numpy does not
    raise on a zero divisor, the quotient is an infinity or a NaN. *)
Definition np_div (x : np_float) (d : R) : np_float :=
  match x with
  | Finite r => if Req_dec_T d 0 then NonFinite else Finite (r / d)
  | NonFinite => NonFinite
  end.

(** ** 2x2 arrays *)

Record matrix : Type := Mat { m00 : np_float; m01 : np_float; m10 : np_float; m11 : np_float }.

(** [np.zeros((2, 2))]. *)
Definition zeros : matrix := Mat (Finite 0) (Finite 0) (Finite 0) (Finite 0).

(** [m[i, j]] for [i], [j] in range. *)
Definition mget (i j : nat) (m : matrix) : np_float :=
  match i, j with
  | 0, 0 => m00 m
  | 0, _ => m01 m
  | _, 0 => m10 m
  | _, _ => m11 m
  end.

(** [m[i, j] = v] for [i], [j] in range. *)
Definition mset (i j : nat) (v : np_float) (m : matrix) : matrix :=
  match i, j with
  | 0, 0 => Mat v (m01 m) (m10 m) (m11 m)
  | 0, _ => Mat (m00 m) v (m10 m) (m11 m)
  | _, 0 => Mat (m00 m) (m01 m) v (m11 m)
  | _, _ => Mat (m00 m) (m01 m) (m10 m) v
  end.

(** ** [cd2cd] *)

(** The function has no [else] branch after its two tests of [ret]: for any
    other selector it falls off its end and returns [None]. *)
Definition cd2cd (cdelt1 cdelt2 crota2 : R) (ret : string) : option matrix :=
  let cd := zeros in
  let pc := zeros in
  let crota2 := radians crota2 in
  let cd := mset 0 0 (Finite (cdelt1 * cos crota2)) cd in
  let cd := mset 0 1 (Finite (cdelt1 * sin crota2)) cd in
  let cd := mset 1 0 (Finite (- cdelt2 * sin crota2)) cd in
  let cd := mset 1 1 (Finite (cdelt2 * cos crota2)) cd in
  let pc := mset 0 0 (np_div (mget 0 0 cd) cdelt1) pc in
  let pc := mset 0 1 (np_div (mget 0 1 cd) cdelt1) pc in
  let pc := mset 1 0 (np_div (mget 1 0 cd) cdelt2) pc in
  let pc := mset 1 1 (np_div (mget 1 1 cd) cdelt2) pc in
  if String.eqb ret "cd" then Some cd
  else if String.eqb ret "pc" then Some pc
  else None.

(** The scale factor of row [i]. *)
Definition scale (cdelt1 cdelt2 : R) (i : nat) : R :=
  match i with 0 => cdelt1 | _ => cdelt2 end.

(** ** Strings and lists, as the Python methods used by the module *)

(** The characters removed by [str.strip()] and separating the tokens of
    [str.split()]: space, tab, line feed, vertical tab, form feed and
    carriage return. *)
Definition py_isspace (c : ascii) : bool :=
  let n := nat_of_ascii c in
  Nat.eqb n 32 || (Nat.leb 9 n && Nat.leb n 13).

Fixpoint lstrip_with (p : ascii -> bool) (s : list ascii) : list ascii :=
  match s with
  | [] => []
  | c :: s' => if p c then lstrip_with p s' else s
  end.

Definition strip_with (p : ascii -> bool) (s : string) : string :=
  string_of_list_ascii
    (rev (lstrip_with p (rev (lstrip_with p (list_ascii_of_string s))))).

(** [s.strip()]. *)
Definition strip (s : string) : string := strip_with py_isspace s.

(** [s.strip(" ")]. *)
Definition strip_spaces (s : string) : string := strip_with (Ascii.eqb " ") s.

(** [s.split(sep)] for a separator of one character: every occurrence of
    the separator splits, so empty tokens appear between adjacent
    separators and the result is never empty. *)
Fixpoint py_split (sep : ascii) (s : string) : list string :=
  match s with
  | EmptyString => [""]
  | String c s' =>
      if Ascii.eqb c sep then "" :: py_split sep s'
      else match py_split sep s' with
           | tok :: rest => String c tok :: rest
           | [] => [String c ""]
           end
  end.

(** [s.split()]: the maximal runs of characters that are not whitespace. *)
Fixpoint py_split_ws (s : string) : list string :=
  match s with
  | EmptyString => []
  | String c s' =>
      if py_isspace c then py_split_ws s'
      else match s' with
           | EmptyString => [String c ""]
           | String c' _ =>
               if py_isspace c' then String c "" :: py_split_ws s'
               else match py_split_ws s' with
                    | tok :: rest => String c tok :: rest
                    | [] => [String c ""]
                    end
           end
  end.

(** [sep.join(l)]. *)
Fixpoint join (sep : string) (l : list string) : string :=
  match l with
  | [] => ""
  | [x] => x
  | x :: l' => x +:+ sep +:+ join sep l'
  end.

(** A slice bound against a sequence of length [len]: a negative bound
    counts from the end, and bounds are clamped to the sequence. *)
Definition norm_index (len i : Z) : Z :=
  if (i <? 0)%Z then Z.max (i + len) 0 else Z.min i len.

(** [s[start:stop]]; [None] is an omitted bound. *)
Definition py_slice (start stop : option Z) (s : string) : string :=
  let len := Z.of_nat (String.length s) in
  let lo := norm_index len (default 0%Z start) in
  let hi := norm_index len (default len stop) in
  substring (Z.to_nat lo) (Z.to_nat (hi - lo)) s.

(** [l[i]]: a negative index counts from the end; out of range raises. *)
Definition py_index {A} (l : list A) (i : Z) : result A :=
  let j := if (i <? 0)%Z then (i + Z.of_nat (length l))%Z else i in
  if (j <? 0)%Z then Raise IndexError
  else match l !! Z.to_nat j with
       | Some x => Ok x
       | None => Raise IndexError
       end.

Definition upper_ascii (c : ascii) : ascii :=
  let n := nat_of_ascii c in
  if Nat.leb 97 n && Nat.leb n 122 then ascii_of_nat (n - 32) else c.

(** [s.upper()]. *)
Fixpoint upper (s : string) : string :=
  match s with
  | EmptyString => EmptyString
  | String c s' => String (upper_ascii c) (upper s')
  end.

(** [c * n] for a string [c]. *)
Fixpoint repeat_string (c : string) (n : nat) : string :=
  match n with
  | 0 => ""
  | S n' => c +:+ repeat_string c n'
  end.

(** The FITS key validator [vkey]. *)
Definition vkey (v : string) : string := py_slice (Some 0%Z) (Some 8%Z) (upper v).

(** ** Decimal literals

    The restriction of the builtin [float] to finite decimal literals:
    optional surrounding whitespace, an optional sign, digits with an
    optional fraction, and an optional exponent.  It is the instance of the
    builtin at which the parser is run on concrete reports. *)

Definition digit_of (c : ascii) : option Z :=
  let n := nat_of_ascii c in
  if Nat.leb 48 n && Nat.leb n 57 then Some (Z.of_nat (n - 48)) else None.

(** Reads a run of digits; returns its value, its length and the rest. *)
Fixpoint read_digits (s : list ascii) (acc : Z) (len : nat) : Z * nat * list ascii :=
  match s with
  | c :: s' =>
      match digit_of c with
      | Some d => read_digits s' (10 * acc + d)%Z (S len)
      | None => (acc, len, s)
      end
  | [] => (acc, len, s)
  end.

Definition read_sign (s : list ascii) : bool * list ascii :=
  match s with
  | "-"%char :: s' => (true, s')
  | "+"%char :: s' => (false, s')
  | _ => (false, s)
  end.

(** The optional exponent: the rest of the literal must be empty or
    [e], an optional sign and at least one digit. *)
Definition read_exponent (s : list ascii) : option Z :=
  match s with
  | [] => Some 0%Z
  | c :: s' =>
      if Ascii.eqb c "e" || Ascii.eqb c "E" then
        let '(neg, s1) := read_sign s' in
        match read_digits s1 0%Z 0 with
        | (e, S _, []) => Some (if neg then (- e)%Z else e)
        | _ => None
        end
      else None
  end.

(** [m * 10 ^ e] as a real number. *)
Definition scale10 (m e : Z) : R :=
  if (0 <=? e)%Z then IZR (m * 10 ^ e) else (IZR m / IZR (10 ^ (- e)))%R.

Definition decimal_float (s : string) : option R :=
  let '(neg, s1) := read_sign (list_ascii_of_string (strip s)) in
  let '(ip, ilen, s2) := read_digits s1 0%Z 0 in
  let '(m, flen, s3) :=
    match s2 with
    | "."%char :: s2' => read_digits s2' ip 0
    | _ => (ip, 0, s2)
    end in
  if Nat.eqb (ilen + flen) 0 then None
  else
    match read_exponent s3 with
    | Some e => Some (scale10 (if neg then - m else m) (e - Z.of_nat flen))
    | None => None
    end.

(** ** [parse_filename] *)

Definition parse_filename (f : string) : gmap string string :=
  let values := py_split "-" f in
  let values :=
    <[ (length values - 1)%nat := hd "" (py_split "." (List.last values "")) ]> values in
  list_to_map (zip ["bibcode"; "page"; "figN"] values).

(** [d.get(k)]: the value or [None]. *)
Definition dict_get (d : gmap string string) (k : string) : pyval :=
  match d !! k with
  | Some s => VStr s
  | None => VNone
  end.

(** ** [parse_txt] *)

(** The conversion table of [parse_txt]: units per degree. *)
Definition u : gmap string R :=
  {[ "arcseconds" := 3600%R; "arcminutes" := 60%R; "degrees" := 1%R ]}.

Section Parser.

(** The builtin [float] on strings: [None] when it raises [ValueError]. *)
Variable float : string -> option R.

Definition py_float (s : string) : result R :=
  match float s with
  | Some r => Ok r
  | None => Raise ValueError
  end.

(** [lines] is what [readlines] returned for the report. *)
Definition parse_txt (lines : list string) : result (gmap string pyval) :=
  let data := map strip lines in
  if Nat.eqb (length data) 3 then Ok {[ "solved" := VBool false ]}
  else
    l0 ← py_index data 0;
    f ← py_index (py_split " " l0) (-1);
    let pf := parse_filename f in
    let bibcode := dict_get pf "bibcode" in
    let figN := dict_get pf "figN" in
    let page := dict_get pf "page" in
    l1 ← py_index data 1;
    t ← py_index (py_split " " l1) 0;
    let inverted := String.eqb (py_slice (Some 1%Z) None t) "inverted" in
    l2 ← py_index data 2;
    t ← py_index (py_split " " l2) 0;
    ra ← py_float (py_slice (Some 1%Z) (Some (-1)%Z) t);
    t ← py_index (py_split " " l2) 1;
    dec ← py_float (py_slice (Some 0%Z) (Some (-1)%Z) t);
    l3 ← py_index data 3;
    t ← py_index (py_split " " l3) 0;
    xs ← py_float t;
    t ← py_index (py_split " " l3) 2;
    ys ← py_float t;
    us ← py_index (py_split " " l3) 3;
    match u !! us with
    | None => Raise BareRaise
    | Some k =>
        let xs := (xs / k)%R in
        let ys := (ys / k)%R in
        l4 ← py_index data 4;
        t ← py_index (py_split " " l4) 5;
        rt ← py_float t;
        Ok (<["solved" := VBool true]>
            (<["ra" := VFloat ra]>
            (<["dec" := VFloat dec]>
            (<["inverted" := VBool inverted]>
            (<["bibcode" := bibcode]>
            (<["figN" := figN]>
            (<["page" := page]>
            (<["xs" := VFloat xs]>
            (<["ys" := VFloat ys]>
            (<["rt" := VFloat rt]>
            (<["txt" := VList data]> ∅)))))))))))
    end.

End Parser.

(** ** Headers *)

(** The fields of the [wcs.WCS(naxis=2)] object that [build_hdr] assigns. *)
Record wcs : Type := Wcs {
  ctype : string * string;
  cunit : string * string;
  crpix : R * R;
  crval : R * R;
  pc : matrix;
  cdelt : R * R
}.

(** A header: the WCS keywords, given by the object they were generated
    from, the cards set by key in their order, and the values of the
    [COMMENT] cards in their order. *)
Record header : Type := Header {
  hdr_wcs : wcs;
  hdr_cards : list (string * (pyval * string));
  hdr_comments : list string
}.

(** [d[k] = v] on a dictionary kept in insertion order: an existing key
    keeps its place. *)
Fixpoint alist_set {V} (k : string) (v : V) (l : list (string * V)) : list (string * V) :=
  match l with
  | [] => [(k, v)]
  | (k', v') :: l' =>
      if String.eqb k' k then (k, v) :: l' else (k', v') :: alist_set k v l'
  end.

(** [k in d]. *)
Definition alist_mem {V} (k : string) (l : list (string * V)) : bool :=
  existsb (fun p => String.eqb (fst p) k) l.

Fixpoint alist_get {V} (k : string) (l : list (string * V)) : option V :=
  match l with
  | [] => None
  | (k', v') :: l' => if String.eqb k' k then Some v' else alist_get k l'
  end.

Fixpoint alist_del {V} (k : string) (l : list (string * V)) : list (string * V) :=
  match l with
  | [] => []
  | (k', v') :: l' =>
      if String.eqb k' k then alist_del k l' else (k', v') :: alist_del k l'
  end.

(** The keywords of commentary cards, and [END]: an assignment under one of
    them does not set a card by key. *)
Definition special_keyword (k : string) : bool :=
  String.eqb k "COMMENT" || String.eqb k "HISTORY" || String.eqb k "" || String.eqb k "END".

(** The characters of a keyword of the standard: upper-case letters,
    digits, the underscore and the hyphen. *)
Definition keyword_char (c : ascii) : bool :=
  let n := nat_of_ascii c in
  (Nat.leb 65 n && Nat.leb n 90) || (Nat.leb 48 n && Nat.leb n 57) ||
  Nat.eqb n 95 || Nat.eqb n 45.

(** The keys under which an assignment sets a card by key. *)
Definition card_keyword (k : string) : bool :=
  negb (special_keyword k) && forallb keyword_char (list_ascii_of_string k).

(** [hdr[k] = (value, comment)] for a key that is not a special keyword:
    the card of this key is replaced, or a new card is added.  Under the
    key [COMMENT] the assignment is [hdr_comment] below. *)
Definition hdr_set (k : string) (v : pyval * string) (hdr : header) : header :=
  Header (hdr_wcs hdr) (alist_set k v (hdr_cards hdr)) (hdr_comments hdr).

(** The characters that the value of a card may hold: printable ASCII, from
    the space to the tilde. *)
Definition printable (c : ascii) : bool :=
  let n := nat_of_ascii c in
  Nat.leb 32 n && Nat.leb n 126.

Definition printable_string (t : string) : bool :=
  forallb printable (list_ascii_of_string t).

(** A text that a card holds as it is given: printable, not empty, and
    without whitespace at its ends. *)
Definition plain_text (t : string) : bool :=
  printable_string t && negb (String.eqb t "") && String.eqb (strip t) t.

(** The pieces of [n] characters of a text, the last one shorter when the
    length is not a multiple of [n]. *)
Fixpoint pieces_fuel (fuel n : nat) (t : string) : list string :=
  match fuel with
  | 0 => []
  | S fuel' =>
      if Nat.eqb (String.length t) 0 then []
      else py_slice (Some 0%Z) (Some (Z.of_nat n)) t
             :: pieces_fuel fuel' n (py_slice (Some (Z.of_nat n)) None t)
  end.

(** The values of the cards made of a commentary value: the value when it
    has at most 72 characters, else its pieces of 72 characters. *)
Definition split_commentary (t : string) : list string :=
  if Nat.leb (String.length t) 72 then [t]
  else pieces_fuel (String.length t) 72 t.

(** [hdr['COMMENT'] = t]: new cards after the comments already there; a
    value with a character that is not printable raises [ValueError]. *)
Definition hdr_comment (t : string) (hdr : header) : result header :=
  if printable_string t then
    Ok (Header (hdr_wcs hdr) (hdr_cards hdr) (hdr_comments hdr ++ split_commentary t)%list)
  else Raise ValueError.

(** The header without the card of key [k]. *)
Definition hdr_del (k : string) (hdr : header) : header :=
  Header (hdr_wcs hdr) (alist_del k (hdr_cards hdr)) (hdr_comments hdr).

(** The module-level name [s]. *)
Definition s : string := "process_astrom.py".

(** ** [lsp] *)

(** [lsp(l, s, p)] cuts [l] into pieces of [s] characters appended to [p].
    The recursion of the source is bounded here by [fuel] calls; running
    out is Python's [RecursionError]. *)
Fixpoint lsp_fuel (fuel : nat) (l : string) (s : nat) (p : list string)
  : result (list string) :=
  match fuel with
  | 0 => Raise RecursionError
  | S fuel' =>
      if Nat.leb (String.length l) s then Ok (p ++ [l])%list
      else lsp_fuel fuel' (py_slice (Some (Z.of_nat s)) None l) s
             (p ++ [py_slice (Some 0%Z) (Some (Z.of_nat s)) l])%list
  end.

Definition lsp (l : string) (s : nat) (p : list string) : result (list string) :=
  lsp_fuel (S (String.length l)) l s p.


(** ** [fits2day], [document] *)

(** [today] is [str(datetime.datetime.today())]. *)
Definition fits2day (today : string) : string :=
  let tr := 19%Z in
  let a := strip_spaces today in
  py_slice (Some 0%Z) (Some tr) (join "T" (py_split_ws a)).

Definition document (today : string) (hdr : header)
    (docs : list (string * (pyval * string))) : header :=
  let docs :=
    if alist_mem "DATE" docs then docs
    else alist_set "DATE" (VStr (fits2day today), "Creation date (apx)") docs in
  fold_left (fun hdr kv => hdr_set (vkey (fst kv)) (snd kv) hdr) docs hdr.

(** A loop whose body can raise. *)
Fixpoint for_each {A B} (f : B -> A -> result B) (l : list A) (b : B) : result B :=
  match l with
  | [] => Ok b
  | x :: l' => b' ← f b x; for_each f l' b'
  end.

(** [enumerate(l)], counting from [i]. *)
Fixpoint enumerate_from {A} (i : nat) (l : list A) : list (nat * A) :=
  match l with
  | [] => []
  | x :: l' => (i, x) :: enumerate_from (S i) l'
  end.

(** ** [build_hdr], up to the WCS object *)

(** [ldpix = lambda x: math.floor(x / 2)]. *)
Definition ldpix (x : pyval) : result R :=
  q ← py_truediv x (VInt 2);
  Ok (IZR (Zfloor q)).

(** The WCS object that [build_hdr] fills before it asks for its header.
    [img] and [txt] are the dictionaries of [parse_img] and [parse_txt].
    The values stored in the object are converted to floats, which fails
    on a value that is not a number. *)
Definition build_wcs (img txt : gmap string pyval) : result wcs :=
  let w_ctype := ("RA---TAN", "DEC--TAN") in
  let w_cunit := ("deg", "deg") in
  ix ← getitem img "xs";
  iy ← getitem img "ys";
  px ← ldpix ix;
  py ← ldpix iy;
  ra ← getitem txt "ra";
  dec ← getitem txt "dec";
  ra ← as_float ra;
  dec ← as_float dec;
  txs ← getitem txt "xs";
  ixs ← getitem img "xs";
  cdelt1 ← py_truediv txs ixs;
  tys ← getitem txt "ys";
  iys ← getitem img "ys";
  cdelt2 ← py_truediv tys iys;
  crota2 ← getitem txt "rt";
  crota2 ← as_float crota2;
  match cd2cd cdelt1 cdelt2 crota2 "pc" with
  | None => Raise TypeError
  | Some w_pc => Ok (Wcs w_ctype w_cunit (px, py) (ra, dec) w_pc (cdelt1, cdelt2))
  end.

Section Library.

(** What is not of the module: [wcs_error w] is the exception that
    [w.to_header()] raises for the object [w], when it raises, and
    [str_float] is the builtin [str] on floats. *)
Variable wcs_error : wcs -> option exn.
Variable str_float : R -> string.

(** [w.to_header()]. *)
Definition to_header (w : wcs) : result header :=
  match wcs_error w with
  | Some e => Raise e
  | None => Ok (Header w [] [])
  end.

(** ** [comments] *)

Definition comments (hdr : header) (stuff : list (string * pyval)) : result header :=
  hdr ← hdr_comment (repeat_string "-" 70) hdr;
  let stuff :=
    if alist_mem "Written by" stuff then stuff
    else alist_set "Written by" (VStr s) stuff in
  for_each
    (fun hdr kv =>
       let k := fst kv in
       match snd kv with
       | VList v =>
           hdr ← hdr_comment k hdr;
           let t := "  " in
           let nt := (80 - 10 * String.length t)%nat in
           for_each
             (fun hdr l =>
                ll ← lsp l nt [];
                for_each
                  (fun hdr il =>
                     hdr_comment
                       ("|" +:+ repeat_string t (fst il + 1) +:+ " " +:+ snd il) hdr)
                  (enumerate_from 0 ll) hdr)
             v hdr
       | VStr v => hdr_comment (k +:+ " " +:+ v) hdr
       | VNone => hdr_comment (k +:+ " " +:+ "None") hdr
       | VBool b => hdr_comment (k +:+ " " +:+ (if b then "True" else "False")) hdr
       | VInt z => hdr_comment (k +:+ " " +:+ pretty z) hdr
       | VFloat r => hdr_comment (k +:+ " " +:+ str_float r) hdr
       end)
    stuff hdr.

(** ** [build_hdr] *)

(** [today] is the reading of the clock made by [fits2day]. *)
Definition build_hdr (today : string) (img txt : gmap string pyval) : result header :=
  w ← build_wcs img txt;
  hdr ← to_header w;
  bibcode ← getitem txt "bibcode";
  figN ← getitem txt "figN";
  page ← getitem txt "page";
  rt ← getitem txt "rt";
  let docs := [("REFERENC", (bibcode, "ADS Bibcode"));
               ("REF_FIGN", (figN, "Figure Number"));
               ("REF_PAGE", (page, "Page Number"));
               ("CROTAX", (rt, "CROTA2 (hidden)"))] in
  let hdr := document today hdr docs in
  lines ← getitem txt "txt";
  comments hdr [("Original Header", lines)].

(** ** [run], after the two files were read *)

(** The truth value of a Python object. *)
Definition truthy (v : pyval) : bool :=
  match v with
  | VNone => false
  | VBool b => b
  | VInt z => negb (z =? 0)%Z
  | VFloat r => if Req_dec_T r 0 then false else true
  | VStr t => negb (String.eqb t "")
  | VList l => negb (Nat.eqb (length l) 0)
  end.

(** [hdr = txt['solved'] and build_hdr(img, txt) or None]: the builder is
    called only for a record whose [solved] is true. *)
Definition run_hdr (today : string) (img txt : gmap string pyval)
  : result (option header) :=
  solved ← getitem txt "solved";
  if truthy solved then hdr ← build_hdr today img txt; Ok (Some hdr)
  else Ok None.

End Library.

(** ** Vocabulary of the specification *)

(** The direct form rebuilt from a cell of the normalized form and the
    scale of its row. *)
Definition np_mul (x : np_float) (d : R) : np_float :=
  match x with
  | Finite r => Finite (r * d)
  | NonFinite => NonFinite
  end.

(** The documented units per degree. *)
Definition per_degree (us : string) : option R :=
  if String.eqb us "arcseconds" then Some 3600%R
  else if String.eqb us "arcminutes" then Some 60%R
  else if String.eqb us "degrees" then Some 1%R
  else None.

(** Token [i] of a line of the report, as [parse_txt] reads it. *)
Definition token (line : string) (i : Z) : result string :=
  py_index (py_split " " (strip line)) i.

Section Reports.

Variable float : string -> option R.

(** The first four lines of a report of five lines hold the sky position
    [(ra, dec)], the field size [w] x [h] and a unit token [us]. *)
Definition valid_prefix (lines : list string) (ra dec w h : R) (us : string) : Prop :=
  exists l1 l2 l3 l4 l5 t_ra t_dec t_w t_h,
    lines = [l1; l2; l3; l4; l5] /\
    token l3 0 = Ok t_ra /\
    float (py_slice (Some 1%Z) (Some (-1)%Z) t_ra) = Some ra /\
    token l3 1 = Ok t_dec /\
    float (py_slice (Some 0%Z) (Some (-1)%Z) t_dec) = Some dec /\
    token l4 0 = Ok t_w /\ float t_w = Some w /\
    token l4 2 = Ok t_h /\ float t_h = Some h /\
    token l4 3 = Ok us.

(** A valid report also holds the rotation [rt] on its fifth line. *)
Definition valid_report (lines : list string) (ra dec w h : R) (us : string) (rt : R)
  : Prop :=
  valid_prefix lines ra dec w h us /\
  exists l5 t_rt,
    lines !! 4%nat = Some l5 /\ token l5 5 = Ok t_rt /\ float t_rt = Some rt.

End Reports.

(** The record that [parse_txt] returns for a report without solution. *)
Definition unsolved : gmap string pyval := {[ "solved" := VBool false ]}.

(** The fields that [parse_txt] sets on a solved report. *)
Definition record_fields (txt : gmap string pyval) : Prop :=
  (exists r, txt !! "ra" = Some (VFloat r)) /\
  (exists r, txt !! "dec" = Some (VFloat r)) /\
  (exists r, txt !! "xs" = Some (VFloat r)) /\
  (exists r, txt !! "ys" = Some (VFloat r)) /\
  (exists r, txt !! "rt" = Some (VFloat r)) /\
  (exists b, txt !! "inverted" = Some (VBool b)) /\
  is_Some (txt !! "bibcode") /\
  is_Some (txt !! "figN") /\
  is_Some (txt !! "page") /\
  (exists l, txt !! "txt" = Some (VList l)).

Definition solved_record (txt : gmap string pyval) : Prop :=
  txt !! "solved" = Some (VBool true) /\ record_fields txt.

(** The pixel dimensions that [parse_img] puts in its dictionary. *)
Definition image_dims (img : gmap string pyval) (w h : Z) : Prop :=
  img !! "xs" = Some (VInt w) /\ img !! "ys" = Some (VInt h).

(** ** Sample data: the report of the docstring of [parse_txt] *)

Definition sample_report : list string :=
  ["testing image: 2010Ciel...72..113N-002-002.ppm";
   "#non-inverted image solved without SIMBAD coordinates in 613.357455015 seconds";
   "(56.7, 24.15)";
   "81.4539 x 59.1175 arcminutes";
   "Field rotation angle: up is -179.411 degrees E of N"].

(** A report of five lines with an empty third line and the unit
    [parsecs]. *)
Definition bad_position_report : list string :=
  ["testing image: a-1-1.ppm"; "#non-inverted image"; ""; "1 x 2 parsecs"; "rot"].

(** A report of five lines whose position and field size parse, with the
    unit [parsecs]. *)
Definition unknown_unit_report : list string :=
  ["testing image: a-1-1.ppm"; "#non-inverted image"; "(1, 2)"; "1 x 2 parsecs"; "rot"].

(** The dictionary of [parse_img] for an image of [w] x [h] pixels, without
    its pixel array. *)
Definition img_dict (w h : Z) : gmap string pyval :=
  <["xs" := VInt w]> (<["ys" := VInt h]> (<["format" := VStr "PNG"]> ∅)).

Definition sample_img : gmap string pyval := img_dict 1000 800.

Definition sample_txt (solved : bool) : gmap string pyval :=
  <["solved" := VBool solved]>
  (<["ra" := VFloat (567 / 10)]>
  (<["dec" := VFloat (2415 / 100)]>
  (<["inverted" := VBool false]>
  (<["bibcode" := VStr "2010Ciel...72..113N"]>
  (<["figN" := VStr "002"]>
  (<["page" := VStr "002"]>
  (<["xs" := VFloat (814539 / 10000 / 60)]>
  (<["ys" := VFloat (591175 / 10000 / 60)]>
  (<["rt" := VFloat (-179411 / 1000)]>
  (<["txt" := VList sample_report]> ∅)))))))))).

(** A header with the given cards and no comment. *)
Definition sample_header (cards : list (string * (pyval * string))) : header :=
  Header (Wcs ("RA---TAN", "DEC--TAN") ("deg", "deg") (0%R, 0%R) (0%R, 0%R) zeros
            (0%R, 0%R)) cards [].

(** A library that refuses a WCS object with a pixel scale of zero or with
    a reference latitude beyond the poles, and a [str] on floats: the
    instances at which the sample data, which format no float, are run. *)
Definition sample_wcs_error (w : wcs) : option exn :=
  if Req_dec_T (fst (cdelt w)) 0 then Some (WcsError "SingularMatrixError")
  else if Req_dec_T (snd (cdelt w)) 0 then Some (WcsError "SingularMatrixError")
  else if Rle_dec (Rabs (snd (crval w))) 90 then None
  else Some (WcsError "InvalidTransformError").

Definition sample_str_float : R -> string := fun _ => "0.0".

(** ** [run] and [main] *)

(** [l[start:stop]] on a list. *)
Definition py_slice_list {A} (start stop : option Z) (l : list A) : list A :=
  let len := Z.of_nat (length l) in
  let lo := norm_index len (default 0%Z start) in
  let hi := norm_index len (default len stop) in
  take (Z.to_nat (hi - lo)) (drop (Z.to_nat lo) l).

(** The names of the image and of the report that [run] derives from the
    file name [f]. *)
Definition run_paths (f : string) : string * string :=
  let r := join "." (py_slice_list None (Some (-1)%Z) (py_split "." f)) in
  (r +:+ "." +:+ "png", r +:+ "." +:+ "txt").

(** What [run] returns: the empty dictionary, after the number of missing
    files was printed, or the dictionary of the header, the record and the
    image. *)
Inductive run_result : Type :=
| RunEmpty (missing : nat)
| RunDict (hdr : option header) (txt img : gmap string pyval).

Section Run.

(** The builtin [float], [os.path.exists], the lines of a file as
    [readlines] returns them, [parse_img], which returns the empty
    dictionary when the image cannot be read, and the library. *)
Variable float : string -> option R.
Variable path_exists : string -> bool.
Variable readlines : string -> list string.
Variable parse_img : string -> gmap string pyval.
Variable wcs_error : wcs -> option exn.
Variable str_float : R -> string.

Definition run (today f : string) : result run_result :=
  let '(p, t) := run_paths f in
  let s := (Nat.b2n (path_exists p) + Nat.b2n (path_exists t))%nat in
  if Nat.ltb s 2 then Ok (RunEmpty (2 - s))
  else
    txt ← parse_txt float (readlines t);
    let img := parse_img p in
    hdr ← run_hdr wcs_error str_float today img txt;
    Ok (RunDict hdr txt img).

End Run.

(** The files of the directory that [main] passes to [run]. *)
Definition main_files (listing : list string) : list string :=
  List.filter (fun f => String.eqb (py_slice (Some (-3)%Z) None f) "png") listing.

(** * Properties *)

(** ** The matrix derivation *)

Lemma np_div_nonzero (r d : R) : d <> 0%R -> np_div (Finite r) d = Finite (r / d).
Proof.
  intros Hd. unfold np_div. destruct (Req_dec_T d 0) as [E | _]; [contradiction | reflexivity].
Qed.

Lemma np_div_zero (x : np_float) : np_div x 0 = NonFinite.
Proof.
  destruct x as [r |]; simpl; [| reflexivity].
  destruct (Req_dec_T 0 0) as [_ | N]; [reflexivity | contradiction N; reflexivity].
Qed.

(** The normalized form, for scales that are not zero. *)
Lemma cd2cd_pc_entries (sx sy theta : R) :
  sx <> 0%R -> sy <> 0%R ->
  cd2cd sx sy theta "pc" =
    Some (Mat (Finite (sx * cos (radians theta) / sx))
              (Finite (sx * sin (radians theta) / sx))
              (Finite (- sy * sin (radians theta) / sy))
              (Finite (sy * cos (radians theta) / sy))).
Proof.
  intros Hx Hy. unfold cd2cd. cbn -[np_div].
  rewrite !np_div_nonzero by assumption. reflexivity.
Qed.

(** C1: in its direct form ([ret = "cd"]) [cd2cd] returns the matrix whose
    entries are [sx * cos t], [sx * sin t], [- sy * sin t] and [sy * cos t],
    where [t] is the angle [theta] converted from degrees to radians, that
    is [theta * (PI / 180)]. *)
Theorem cd2cd_cd_entries (sx sy theta : R) :
  radians theta = (theta * (PI / 180))%R /\
  exists M : matrix,
    cd2cd sx sy theta "cd" = Some M /\
    mget 0 0 M = Finite (sx * cos (radians theta)) /\
    mget 0 1 M = Finite (sx * sin (radians theta)) /\
    mget 1 0 M = Finite (- sy * sin (radians theta)) /\
    mget 1 1 M = Finite (sy * cos (radians theta)).
Proof.
  split; [reflexivity |].
  eexists. split; [reflexivity |]. simpl. repeat split.
Qed.

(** C3: for positive scales, each cell of the normalized form
    ([ret = "pc"]) multiplied by the scale of its row is the cell of the
    direct form: [P[i][j] * scale_i = M[i][j]], exactly in real
    arithmetic. *)
Theorem cd2cd_pc_roundtrip (sx sy theta : R) :
  (0 < sx)%R -> (0 < sy)%R ->
  exists P M : matrix,
    cd2cd sx sy theta "pc" = Some P /\
    cd2cd sx sy theta "cd" = Some M /\
    forall i j : nat, (i < 2)%nat -> (j < 2)%nat ->
      np_mul (mget i j P) (scale sx sy i) = mget i j M.
Proof.
  intros Hx Hy.
  assert (Hx' : sx <> 0%R) by lra. assert (Hy' : sy <> 0%R) by lra.
  eexists. eexists. split; [apply cd2cd_pc_entries; assumption |].
  split; [reflexivity |].
  intros i j Hi Hj.
  destruct i as [| [| i]]; [| | lia]; destruct j as [| [| j]]; try lia;
    simpl; f_equal; field; assumption.
Qed.

Lemma cd2cd_pc_roundtrip_witness :
  exists P M : matrix,
    cd2cd 2 3 30 "pc" = Some P /\
    cd2cd 2 3 30 "cd" = Some M /\
    forall i j : nat, (i < 2)%nat -> (j < 2)%nat ->
      np_mul (mget i j P) (scale 2 3 i) = mget i j M.
Proof.
  apply (cd2cd_pc_roundtrip 2 3 30); lra.
Defined.

(** C10: for a selector [ret] other than ["cd"] and ["pc"], [cd2cd] returns
    no matrix: its result is [None]. *)
Theorem cd2cd_other_selector (cdelt1 cdelt2 crota2 : R) (ret : string) :
  ret <> "cd" -> ret <> "pc" -> cd2cd cdelt1 cdelt2 crota2 ret = None.
Proof.
  intros Hcd Hpc. unfold cd2cd.
  apply String.eqb_neq in Hcd. apply String.eqb_neq in Hpc.
  rewrite Hcd, Hpc. reflexivity.
Qed.

Lemma cd2cd_other_selector_witness : cd2cd 1 1 0 "CD" = None.
Proof.
  apply (cd2cd_other_selector 1 1 0 "CD"); discriminate.
Defined.

(** ** The parser *)

Lemma py_split_cons (sep : ascii) (t : string) :
  exists tok rest, py_split sep t = tok :: rest.
Proof.
  induction t as [| c t IH]; simpl; [by eauto |].
  destruct (Ascii.eqb c sep); [by eauto |].
  destruct (py_split sep t); by eauto.
Qed.

Lemma py_index_first {A} (x : A) (l : list A) : py_index (x :: l) 0 = Ok x.
Proof. reflexivity. Qed.

Lemma py_index_last_ok {A} (x : A) (l : list A) :
  exists y, py_index (x :: l) (-1) = Ok y.
Proof.
  unfold py_index.
  replace (-1 <? 0)%Z with true by reflexivity.
  replace (-1 + Z.of_nat (length (x :: l)))%Z with (Z.of_nat (length l))
    by (simpl length; lia).
  destruct (Z.ltb_spec (Z.of_nat (length l)) 0) as [Hlt | _]; [lia |].
  rewrite Nat2Z.id.
  destruct (lookup_lt_is_Some_2 (x :: l) (length l)) as [y Hy]; [simpl; lia |].
  rewrite Hy. by eauto.
Qed.

(** The first and the last token of a line are always there. *)
Lemma token_first (line : string) : exists t, token line 0 = Ok t.
Proof.
  unfold token. destruct (py_split_cons " " (strip line)) as (tok & rest & ->).
  by eauto.
Qed.

Lemma token_last (line : string) : exists t, token line (-1) = Ok t.
Proof.
  unfold token. destruct (py_split_cons " " (strip line)) as (tok & rest & ->).
  apply py_index_last_ok.
Qed.

(** The table of the source holds the documented factors. *)
Lemma u_per_degree (us : string) : u !! us = per_degree us.
Proof.
  unfold u, per_degree.
  destruct (String.eqb_spec us "arcseconds") as [-> | N1]; [reflexivity |].
  rewrite lookup_insert_ne by congruence.
  destruct (String.eqb_spec us "arcminutes") as [-> | N2]; [reflexivity |].
  rewrite lookup_insert_ne by congruence.
  destruct (String.eqb_spec us "degrees") as [-> | N3]; [reflexivity |].
  rewrite lookup_singleton_ne by congruence. reflexivity.
Qed.

Lemma per_degree_cases (us : string) (k : R) :
  per_degree us = Some k ->
  (us = "arcseconds" /\ k = 3600%R) \/
  (us = "arcminutes" /\ k = 60%R) \/
  (us = "degrees" /\ k = 1%R).
Proof.
  unfold per_degree.
  destruct (String.eqb_spec us "arcseconds"); [intros [= <-]; by auto |].
  destruct (String.eqb_spec us "arcminutes"); [intros [= <-]; by auto |].
  destruct (String.eqb_spec us "degrees"); [intros [= <-]; by auto |].
  discriminate.
Qed.

(** Indexing the five lines of a report. *)
Lemma py_index_five {A} (a b c d e : A) :
  py_index [a; b; c; d; e] 0 = Ok a /\
  py_index [a; b; c; d; e] 1 = Ok b /\
  py_index [a; b; c; d; e] 2 = Ok c /\
  py_index [a; b; c; d; e] 3 = Ok d /\
  py_index [a; b; c; d; e] 4 = Ok e.
Proof. repeat split. Qed.

Ltac parse_five_lines :=
  unfold parse_txt; cbn [map length Nat.eqb];
  match goal with
  | |- context [py_index [?a; ?b; ?c; ?d; ?e] _] =>
      destruct (py_index_five a b c d e) as (-> & -> & -> & -> & ->)
  end;
  cbn [mbind result_bind].

Section ParserProperties.

Variable float : string -> option R.

Lemma py_float_some (t : string) (r : R) : float t = Some r -> py_float float t = Ok r.
Proof. intros H. unfold py_float. rewrite H. reflexivity. Qed.

(** What [parse_txt] does on the first four lines of a valid report. *)
Lemma parse_txt_prefix (l1 l2 l3 l4 l5 : string) (ra dec w h : R) (us : string) :
  valid_prefix float [l1; l2; l3; l4; l5] ra dec w h us ->
  exists f t_inv,
    token l1 (-1) = Ok f /\ token l2 0 = Ok t_inv /\
    parse_txt float [l1; l2; l3; l4; l5] =
      match u !! us with
      | None => Raise BareRaise
      | Some k =>
          t ← token l5 5;
          rt ← py_float float t;
          Ok (<["solved" := VBool true]>
              (<["ra" := VFloat ra]>
              (<["dec" := VFloat dec]>
              (<["inverted" :=
                   VBool (String.eqb (py_slice (Some 1%Z) None t_inv) "inverted")]>
              (<["bibcode" := dict_get (parse_filename f) "bibcode"]>
              (<["figN" := dict_get (parse_filename f) "figN"]>
              (<["page" := dict_get (parse_filename f) "page"]>
              (<["xs" := VFloat (w / k)]>
              (<["ys" := VFloat (h / k)]>
              (<["rt" := VFloat rt]>
              (<["txt" := VList (map strip [l1; l2; l3; l4; l5])]> ∅)))))))))))
      end.
Proof.
  intros (m1 & m2 & m3 & m4 & m5 & t_ra & t_dec & t_w & t_h & E & H).
  injection E as <- <- <- <- <-.
  destruct H as (Hra & Fra & Hdec & Fdec & Hw & Fw & Hh & Fh & Hus).
  destruct (token_last l1) as [f Hf]. destruct (token_first l2) as [t_inv Hinv].
  exists f, t_inv. split; [assumption |]. split; [assumption |].
  apply py_float_some in Fra, Fdec, Fw, Fh.
  unfold token in *. parse_five_lines.
  rewrite Hf. cbn [mbind result_bind].
  rewrite Hinv. cbn [mbind result_bind].
  rewrite Hra. cbn [mbind result_bind]. rewrite Fra. cbn [mbind result_bind].
  rewrite Hdec. cbn [mbind result_bind]. rewrite Fdec. cbn [mbind result_bind].
  rewrite Hw. cbn [mbind result_bind]. rewrite Fw. cbn [mbind result_bind].
  rewrite Hh. cbn [mbind result_bind]. rewrite Fh. cbn [mbind result_bind].
  rewrite Hus. cbn [mbind result_bind].
  reflexivity.
Qed.

End ParserProperties.

(** Inversion of a successful run of a computation in [result]. *)
Ltac inv_ok H :=
  repeat match type of H with
    | mbind _ ?m = Ok _ =>
        let E := fresh "E" in
        destruct m eqn:E; cbn [mbind result_bind] in H; [| discriminate H]
    | match ?x with Some _ => _ | None => _ end = Ok _ =>
        let E := fresh "E" in
        destruct x eqn:E; [| discriminate H]
    end.

Section ParserTheorems.

Variable float : string -> option R.

(** A record returned by [parse_txt] is the unsolved record or has every
    field of a solved one. *)
Lemma parse_txt_record (lines : list string) (rec : gmap string pyval) :
  parse_txt float lines = Ok rec -> rec = unsolved \/ solved_record rec.
Proof.
  unfold parse_txt. destruct (Nat.eqb (length (map strip lines)) 3).
  - intros [= <-]. left. reflexivity.
  - intros H. right. inv_ok H. injection H as <-.
    split; [reflexivity |].
    unfold record_fields. repeat split; try (eexists; reflexivity).
Qed.

(** C2: on a valid report of five lines whose unit token is
    ["arcseconds"], ["arcminutes"] or ["degrees"], [parse_txt] returns a
    solved record whose field size ([xs], [ys]) is the width and the
    height read from the fourth line divided by the factor of the unit,
    3600, 60 or 1. *)
Theorem parse_txt_field_size (lines : list string) (ra dec w h : R) (us : string)
    (rt k : R) :
  valid_report float lines ra dec w h us rt ->
  per_degree us = Some k ->
  ((us = "arcseconds" /\ k = 3600%R) \/
   (us = "arcminutes" /\ k = 60%R) \/
   (us = "degrees" /\ k = 1%R)) /\
  exists rec : gmap string pyval,
    parse_txt float lines = Ok rec /\
    rec !! "solved" = Some (VBool true) /\
    rec !! "xs" = Some (VFloat (w / k)) /\
    rec !! "ys" = Some (VFloat (h / k)).
Proof.
  intros [Hpre (l5 & t_rt & Hl5 & Ht & Hrt)] Hk.
  split; [by apply per_degree_cases |].
  pose proof Hpre as (m1 & m2 & m3 & m4 & m5 & _ & _ & _ & _ & -> & _).
  apply parse_txt_prefix in Hpre as (f & t_inv & _ & _ & ->).
  injection Hl5 as ->.
  rewrite u_per_degree, Hk, Ht. cbn [mbind result_bind].
  rewrite (py_float_some _ _ _ Hrt). cbn [mbind result_bind].
  eexists. split; [reflexivity |]. repeat split.
Qed.

Lemma py_index_raise {A} (l : list A) (i : Z) (e : exn) :
  py_index l i = Raise e -> e = IndexError.
Proof.
  unfold py_index. destruct (_ <? 0)%Z; [by intros [= <-] |].
  destruct (l !! _); [discriminate | by intros [= <-]].
Qed.

Lemma py_float_raise (t : string) (e : exn) :
  py_float float t = Raise e -> e = ValueError.
Proof. unfold py_float. destruct (float t); [discriminate | by intros [= <-]]. Qed.

Lemma py_float_ok (t : string) (r : R) : py_float float t = Ok r -> float t = Some r.
Proof. unfold py_float. destruct (float t); [by intros [= <-] | discriminate]. Qed.

(** C4, as the code has it: on a report of five lines whose unit token is
    not in the table, [parse_txt] returns no record.  When the position of
    the third line and the width and the height of the fourth parse, the
    exception is the one of the bare [raise] at the test of the unit;
    otherwise it is the one of the step that fails before this test, the
    [ValueError] of [float] or the [IndexError] of a missing token. *)
Theorem parse_txt_unknown_unit (l1 l2 l3 l4 l5 us : string) :
  token l4 3 = Ok us ->
  u !! us = None ->
  is_ok (parse_txt float [l1; l2; l3; l4; l5]) = false /\
  (forall ra dec w h : R,
     valid_prefix float [l1; l2; l3; l4; l5] ra dec w h us ->
     parse_txt float [l1; l2; l3; l4; l5] = Raise BareRaise) /\
  (~ (exists ra dec w h : R, valid_prefix float [l1; l2; l3; l4; l5] ra dec w h us) ->
   parse_txt float [l1; l2; l3; l4; l5] = Raise ValueError \/
   parse_txt float [l1; l2; l3; l4; l5] = Raise IndexError).
Proof.
  intros Hus Hk.
  assert (Hvalid : forall ra dec w h : R,
            valid_prefix float [l1; l2; l3; l4; l5] ra dec w h us ->
            parse_txt float [l1; l2; l3; l4; l5] = Raise BareRaise).
  { intros ra dec w h Hpre.
    apply parse_txt_prefix in Hpre as (f & t_inv & _ & _ & ->).
    rewrite Hk. reflexivity. }
  assert (Hother :
    (exists ra dec w h : R, valid_prefix float [l1; l2; l3; l4; l5] ra dec w h us) \/
    parse_txt float [l1; l2; l3; l4; l5] = Raise ValueError \/
    parse_txt float [l1; l2; l3; l4; l5] = Raise IndexError).
  { parse_five_lines.
    repeat match goal with
      | |- context [mbind _ (py_index ?l ?i)] =>
          let E := fresh "E" in
          destruct (py_index l i) as [? | ?e] eqn:E; cbn [mbind result_bind];
          [| apply py_index_raise in E; subst; right; right; reflexivity]
      | |- context [mbind _ (py_float float ?t)] =>
          let E := fresh "E" in
          destruct (py_float float t) as [? | ?e] eqn:E; cbn [mbind result_bind];
          [apply py_float_ok in E
          | apply py_float_raise in E; subst; right; left; reflexivity]
      end.
    left. unfold token in Hus.
    repeat match goal with
      | H : py_index (py_split " " (strip l4)) 3 = Ok ?x |- _ =>
          rewrite Hus in H; injection H as <-
      end.
    do 4 eexists. unfold valid_prefix, token.
    do 9 eexists. split; [reflexivity |]. repeat split; eassumption. }
  split; [| split].
  - destruct Hother as [(ra & dec & w & h & Hpre) | [-> | ->]]; try reflexivity.
    rewrite (Hvalid ra dec w h Hpre). reflexivity.
  - exact Hvalid.
  - intros Hnot. destruct Hother as [Hpre | H]; [contradiction | exact H].
Qed.

(** C5: on a report of three lines [parse_txt] returns the record whose
    only field is [solved], false, whatever the lines hold and whatever
    [float] does: nothing of the lines is parsed. *)
Theorem parse_txt_three_lines (lines : list string) :
  length lines = 3%nat ->
  parse_txt float lines = Ok unsolved /\
  unsolved !! "solved" = Some (VBool false) /\
  forall k : string, k <> "solved" -> unsolved !! k = None.
Proof.
  intros Hlen. unfold parse_txt. rewrite length_map, Hlen.
  split; [reflexivity |]. split; [reflexivity |].
  intros k Hk. unfold unsolved. by rewrite lookup_singleton_ne.
Qed.

End ParserTheorems.

Lemma sample_report_valid :
  valid_report decimal_float sample_report
    (567 / 10) (2415 / 100) (814539 / 10000) (591175 / 10000) "arcminutes"
    (-179411 / 1000).
Proof.
  split.
  - do 9 eexists. repeat split; reflexivity.
  - do 2 eexists. repeat split; reflexivity.
Qed.

Lemma parse_txt_field_size_witness :
  (("arcminutes" = "arcseconds" /\ 60%R = 3600%R) \/
   ("arcminutes" = "arcminutes" /\ 60%R = 60%R) \/
   ("arcminutes" = "degrees" /\ 60%R = 1%R)) /\
  exists rec : gmap string pyval,
    parse_txt decimal_float sample_report = Ok rec /\
    rec !! "solved" = Some (VBool true) /\
    rec !! "xs" = Some (VFloat (814539 / 10000 / 60)) /\
    rec !! "ys" = Some (VFloat (591175 / 10000 / 60)).
Proof.
  apply (parse_txt_field_size decimal_float sample_report
           (567 / 10) (2415 / 100) (814539 / 10000) (591175 / 10000) "arcminutes"
           (-179411 / 1000) 60).
  - apply sample_report_valid.
  - reflexivity.
Defined.

(** C4, as stated, fails: the unit token of this report is outside the
    table, and [parse_txt] raises the [ValueError] of [float] on the third
    line, not the exception of the test of the unit. *)
Lemma parse_txt_unknown_unit_counterexample :
  token "1 x 2 parsecs" 3 = Ok "parsecs" /\
  u !! "parsecs" = None /\
  parse_txt decimal_float bad_position_report = Raise ValueError /\
  parse_txt decimal_float bad_position_report <> Raise BareRaise.
Proof.
  repeat split; try reflexivity.
  change (parse_txt decimal_float bad_position_report) with (@Raise (gmap string pyval) ValueError).
  discriminate.
Qed.

Lemma parse_txt_unknown_unit_witness :
  is_ok (parse_txt decimal_float unknown_unit_report) = false /\
  parse_txt decimal_float unknown_unit_report = Raise BareRaise.
Proof.
  destruct (parse_txt_unknown_unit decimal_float
              "testing image: a-1-1.ppm" "#non-inverted image" "(1, 2)"
              "1 x 2 parsecs" "rot" "parsecs") as (Hnone & Hraise & _).
  - reflexivity.
  - reflexivity.
  - split; [exact Hnone |].
    apply (Hraise 1%R 2%R 1%R 2%R).
    do 9 eexists. repeat split; reflexivity.
Defined.

Lemma parse_txt_three_lines_witness :
  parse_txt decimal_float ["testing image: a-1-1.ppm"; "#did not solve"; ""] = Ok unsolved /\
  unsolved !! "solved" = Some (VBool false) /\
  forall k : string, k <> "solved" -> unsolved !! k = None.
Proof.
  apply (parse_txt_three_lines decimal_float); reflexivity.
Defined.


(** ** Strings as lists of characters *)

Lemma length_list_ascii (t : string) :
  length (list_ascii_of_string t) = String.length t.
Proof. induction t as [| c t IH]; simpl; [reflexivity | by rewrite IH]. Qed.

Lemma list_ascii_app (t1 t2 : string) :
  list_ascii_of_string (t1 +:+ t2) = (list_ascii_of_string t1 ++ list_ascii_of_string t2)%list.
Proof. induction t1 as [| c t1 IH]; simpl; [reflexivity | by rewrite IH]. Qed.

Lemma list_ascii_substring (n m : nat) (t : string) :
  list_ascii_of_string (substring n m t) = take m (drop n (list_ascii_of_string t)).
Proof.
  revert n m. induction t as [| c t IH]; intros [| n] [| m]; simpl; try reflexivity.
  - by rewrite IH.
  - apply IH.
  - apply IH.
Qed.

Lemma list_ascii_inj (t1 t2 : string) :
  list_ascii_of_string t1 = list_ascii_of_string t2 -> t1 = t2.
Proof.
  intros H. rewrite <- (string_of_list_ascii_of_string t1),
    <- (string_of_list_ascii_of_string t2), H. reflexivity.
Qed.

Lemma append_empty_r (t : string) : t +:+ "" = t.
Proof.
  induction t as [| c t IH]; [reflexivity |].
  change (String c (t +:+ "") = String c t). by rewrite IH.
Qed.

Lemma append_assoc (t1 t2 t3 : string) : (t1 +:+ t2) +:+ t3 = t1 +:+ (t2 +:+ t3).
Proof.
  induction t1 as [| c t1 IH]; [reflexivity |].
  change (String c ((t1 +:+ t2) +:+ t3) = String c (t1 +:+ (t2 +:+ t3))). by rewrite IH.
Qed.

Lemma length_append (t1 t2 : string) :
  String.length (t1 +:+ t2) = (String.length t1 + String.length t2)%nat.
Proof.
  induction t1 as [| c t1 IH]; [reflexivity |].
  change (S (String.length (t1 +:+ t2)) = S (String.length t1 + String.length t2)).
  by rewrite IH.
Qed.

(** The slices [t[0:n]] and [t[n:]]. *)
Lemma py_slice_to (n : nat) (t : string) :
  list_ascii_of_string (py_slice (Some 0%Z) (Some (Z.of_nat n)) t) =
    take n (list_ascii_of_string t).
Proof.
  unfold py_slice, norm_index. cbv [default from_option Datatypes.id].
  rewrite list_ascii_substring.
  destruct (Z.ltb_spec 0 0) as [? | _]; [lia |].
  destruct (Z.ltb_spec (Z.of_nat n) 0) as [? | _]; [lia |].
  replace (Z.to_nat (Z.min 0 (Z.of_nat (String.length t)))) with 0%nat by lia.
  rewrite drop_0.
  destruct (Nat.le_gt_cases n (String.length t)) as [Hle | Hgt].
  - f_equal. lia.
  - rewrite !take_ge; try reflexivity; rewrite length_list_ascii; lia.
Qed.

Lemma py_slice_from (n : nat) (t : string) :
  list_ascii_of_string (py_slice (Some (Z.of_nat n)) None t) =
    drop n (list_ascii_of_string t).
Proof.
  unfold py_slice, norm_index. cbv [default from_option Datatypes.id].
  rewrite list_ascii_substring.
  destruct (Z.ltb_spec (Z.of_nat n) 0) as [? | _]; [lia |].
  destruct (Z.ltb_spec (Z.of_nat (String.length t)) 0) as [? | _]; [lia |].
  destruct (Nat.le_gt_cases n (String.length t)) as [Hle | Hgt].
  - replace (Z.to_nat (Z.min (Z.of_nat n) (Z.of_nat (String.length t)))) with n by lia.
    apply take_ge. rewrite length_drop, length_list_ascii. lia.
  - rewrite !drop_ge; try (rewrite length_list_ascii; lia). by rewrite take_nil.
Qed.

Lemma py_slice_split (n : nat) (t : string) :
  py_slice (Some 0%Z) (Some (Z.of_nat n)) t +:+ py_slice (Some (Z.of_nat n)) None t = t.
Proof.
  apply list_ascii_inj. rewrite list_ascii_app, py_slice_to, py_slice_from.
  apply take_drop.
Qed.

Lemma length_py_slice_to (n : nat) (t : string) :
  String.length (py_slice (Some 0%Z) (Some (Z.of_nat n)) t) = Nat.min n (String.length t).
Proof. rewrite <- !length_list_ascii, py_slice_to, length_take. reflexivity. Qed.

Lemma length_py_slice_from (n : nat) (t : string) :
  String.length (py_slice (Some (Z.of_nat n)) None t) = (String.length t - n)%nat.
Proof. rewrite <- !length_list_ascii, py_slice_from, length_drop. reflexivity. Qed.

(** ** The builder *)

Lemma Zfloor_half (w : Z) : Zfloor (IZR w / 2) = (w / 2)%Z.
Proof.
  apply Zfloor_eq.
  pose proof (Z.div_mod w 2 ltac:(lia)) as Hdm.
  pose proof (Z.mod_pos_bound w 2 ltac:(lia)) as Hb.
  assert (Hw : IZR w = (2 * IZR (w / 2) + IZR (w mod 2))%R).
  { rewrite <- mult_IZR, <- plus_IZR. f_equal. exact Hdm. }
  assert (H0 : (0 <= IZR (w mod 2))%R) by (apply IZR_le; lia).
  assert (H1 : (IZR (w mod 2) <= 1)%R) by (apply IZR_le; lia).
  lra.
Qed.

Lemma lsp_fuel_ok (fuel : nat) (l : string) (n : nat) (p : list string) :
  (0 < n)%nat -> (String.length l < fuel)%nat ->
  exists r, lsp_fuel fuel l n p = Ok r.
Proof.
  intros Hn. revert l p. induction fuel as [| fuel IH]; intros l p Hlen; [lia |].
  cbn [lsp_fuel]. destruct (Nat.leb_spec (String.length l) n) as [Hle | Hgt]; [by eauto |].
  apply IH. rewrite length_py_slice_from. lia.
Qed.

Lemma lsp_ok (l : string) (n : nat) (p : list string) :
  (0 < n)%nat -> exists r, lsp l n p = Ok r.
Proof. intros Hn. apply lsp_fuel_ok; [assumption | lia]. Qed.

(** The pieces of [lsp] hold characters of the line only. *)
Lemma lsp_fuel_chars (P : ascii -> Prop) (fuel : nat) (l : string) (n : nat)
    (p r : list string) :
  Forall P (list_ascii_of_string l) ->
  Forall (fun c => Forall P (list_ascii_of_string c)) p ->
  lsp_fuel fuel l n p = Ok r ->
  Forall (fun c => Forall P (list_ascii_of_string c)) r.
Proof.
  revert l p. induction fuel as [| fuel IH]; intros l p Hl Hp; [discriminate |].
  cbn [lsp_fuel]. destruct (Nat.leb (String.length l) n).
  - intros [= <-]. apply Forall_app. split; [assumption | by constructor].
  - apply IH.
    + rewrite py_slice_from. by apply Forall_drop.
    + apply Forall_app. split; [assumption |].
      constructor; [| constructor]. rewrite py_slice_to. by apply Forall_take.
Qed.

(** Loops: a property kept by every step that returns is kept by the loop,
    a loop whose steps return does return, and a loop raises what one of
    its steps raises. *)
Lemma for_each_inv {A B} (P : B -> Prop) (f : B -> A -> result B) (l : list A) (b b' : B) :
  (forall b x b', P b -> f b x = Ok b' -> P b') ->
  P b -> for_each f l b = Ok b' -> P b'.
Proof.
  intros Hf. revert b. induction l as [| x l IH]; intros b Hb; simpl.
  - by intros [= <-].
  - destruct (f b x) as [b1 |] eqn:E; cbn [mbind result_bind]; [| discriminate].
    apply IH. by apply (Hf b x).
Qed.

Lemma for_each_ok {A B} (Q : A -> Prop) (f : B -> A -> result B) (l : list A) (b : B) :
  (forall b x, Q x -> exists b', f b x = Ok b') ->
  Forall Q l -> exists b', for_each f l b = Ok b'.
Proof.
  intros Hf Hl. revert b. induction Hl as [| x l Hx _ IH]; intros b; simpl; [by eauto |].
  destruct (Hf b x Hx) as [b1 ->]. cbn [mbind result_bind]. apply IH.
Qed.

Lemma for_each_raise {A B} (E : exn -> Prop) (f : B -> A -> result B) (l : list A)
    (b : B) (e : exn) :
  (forall b x e, f b x = Raise e -> E e) ->
  for_each f l b = Raise e -> E e.
Proof.
  intros Hf. revert b. induction l as [| x l IH]; intros b; simpl; [discriminate |].
  destruct (f b x) as [b1 | e1] eqn:E1; cbn [mbind result_bind].
  - apply IH.
  - intros [= <-]. by apply (Hf b x).
Qed.

Lemma for_each_commute {A B} (g : B -> B) (f : B -> A -> result B) (l : list A) (b : B) :
  (forall b x, g <$> f b x = f (g b) x) -> g <$> for_each f l b = for_each f l (g b).
Proof.
  intros Hf. revert b. induction l as [| x l IH]; intros b; simpl; [reflexivity |].
  rewrite <- Hf. destruct (f b x) as [b' | e]; simpl; [apply IH | reflexivity].
Qed.

Lemma fold_left_inv {A B} (P : B -> Prop) (f : B -> A -> B) (l : list A) (b : B) :
  (forall b x, P b -> P (f b x)) -> P b -> P (fold_left f l b).
Proof.
  intros Hf. revert b. induction l as [| x l IH]; intros b Hb; simpl; [assumption |].
  apply IH, Hf, Hb.
Qed.

(** A commentary assignment returns for a printable value and raises
    [ValueError] for another; it adds cards after the comments that are
    there and touches nothing else. *)
Lemma hdr_comment_ok (t : string) (hdr : header) :
  printable_string t = true ->
  hdr_comment t hdr =
    Ok (Header (hdr_wcs hdr) (hdr_cards hdr) (hdr_comments hdr ++ split_commentary t)%list).
Proof. intros H. unfold hdr_comment. rewrite H. reflexivity. Qed.

Lemma hdr_comment_inv (t : string) (hdr hdr' : header) :
  hdr_comment t hdr = Ok hdr' ->
  hdr' = Header (hdr_wcs hdr) (hdr_cards hdr) (hdr_comments hdr ++ split_commentary t)%list.
Proof. unfold hdr_comment. destruct (printable_string t); [by intros [= <-] | discriminate]. Qed.

Lemma hdr_comment_raise (t : string) (hdr : header) (e : exn) :
  hdr_comment t hdr = Raise e -> e = ValueError.
Proof. unfold hdr_comment. destruct (printable_string t); [discriminate | by intros [= <-]]. Qed.

Lemma hdr_comment_hdr_del (k t : string) (hdr : header) :
  hdr_del k <$> hdr_comment t hdr = hdr_comment t (hdr_del k hdr).
Proof. unfold hdr_comment. destruct (printable_string t); reflexivity. Qed.

Lemma printable_string_app (t1 t2 : string) :
  printable_string (t1 +:+ t2) = printable_string t1 && printable_string t2.
Proof. unfold printable_string. rewrite list_ascii_app. apply forallb_app. Qed.

Lemma printable_string_chars (t : string) :
  printable_string t = true <->
  Forall (fun c => printable c = true) (list_ascii_of_string t).
Proof.
  unfold printable_string. rewrite forallb_forall, Forall_forall.
  split; intros H x Hx; apply H; by apply list_elem_of_In.
Qed.

Lemma printable_repeat_blank (n : nat) : printable_string (repeat_string "  " n) = true.
Proof.
  induction n as [| n IH]; [reflexivity |].
  cbn [repeat_string]. rewrite printable_string_app, IH. reflexivity.
Qed.

Section BuilderLemmas.

Variable wcs_error : wcs -> option exn.
Variable str_float : R -> string.

(** What [comments] keeps: the WCS keywords, the cards set by key and the
    comments that are there, after which it writes a rule of dashes. *)
Lemma comments_inv (hdr hdr' : header) (stuff : list (string * pyval)) :
  comments str_float hdr stuff = Ok hdr' ->
  hdr_wcs hdr' = hdr_wcs hdr /\ hdr_cards hdr' = hdr_cards hdr /\
  exists cs, hdr_comments hdr' = (hdr_comments hdr ++ repeat_string "-" 70 :: cs)%list.
Proof.
  set (P := fun h : header =>
    hdr_wcs h = hdr_wcs hdr /\ hdr_cards h = hdr_cards hdr /\
    exists cs, hdr_comments h = (hdr_comments hdr ++ repeat_string "-" 70 :: cs)%list).
  assert (Hstep : forall t h h', P h -> hdr_comment t h = Ok h' -> P h').
  { intros t h h' (Hw & Hc & cs & Hcs) H. apply hdr_comment_inv in H as ->.
    repeat split; try assumption.
    exists (cs ++ split_commentary t)%list. cbn [hdr_comments].
    rewrite Hcs, <- app_assoc. reflexivity. }
  unfold comments.
  destruct (hdr_comment (repeat_string "-" 70) hdr) as [h0 |] eqn:E0;
    cbn [mbind result_bind]; [| discriminate].
  apply (for_each_inv P).
  - intros b [k v] b' Hb. cbn [fst snd].
    destruct v; try (by apply Hstep).
    destruct (hdr_comment k b) as [b0 |] eqn:Ek; cbn [mbind result_bind]; [| discriminate].
    apply (for_each_inv P); [| by apply (Hstep k b)].
    intros b1 x b2 Hb1.
    destruct (lsp x _ []) as [ll |]; cbn [mbind result_bind]; [| discriminate].
    apply (for_each_inv P); [| exact Hb1].
    intros b3 il b4 Hb3. by apply Hstep.
  - apply hdr_comment_inv in E0 as ->. repeat split.
    exists []. reflexivity.
Qed.

(** [comments] raises nothing but the [ValueError] of a value that is not
    printable: the recursion of [lsp] ends. *)
Lemma comments_raise (hdr : header) (stuff : list (string * pyval)) (e : exn) :
  comments str_float hdr stuff = Raise e -> e = ValueError.
Proof.
  unfold comments.
  destruct (hdr_comment (repeat_string "-" 70) hdr) as [h0 | e0] eqn:E0;
    cbn [mbind result_bind]; [| intros [= <-]; by apply hdr_comment_raise in E0].
  apply (for_each_raise (fun e => e = ValueError)).
  intros b [k v] e1. cbn [fst snd].
  destruct v; try apply hdr_comment_raise.
  destruct (hdr_comment k b) as [b0 | e2] eqn:Ek; cbn [mbind result_bind];
    [| intros [= <-]; by apply hdr_comment_raise in Ek].
  apply (for_each_raise (fun e => e = ValueError)).
  intros b1 x e3.
  destruct (lsp_ok x (80 - 10 * String.length "  ") []) as [ll ->]; [simpl; lia |].
  cbn [mbind result_bind].
  apply (for_each_raise (fun e => e = ValueError)).
  intros b3 il e4. apply hdr_comment_raise.
Qed.

(** [comments] does not read the cards set by key. *)
Lemma comments_hdr_del (k : string) (hdr : header) (stuff : list (string * pyval)) :
  hdr_del k <$> comments str_float hdr stuff = comments str_float (hdr_del k hdr) stuff.
Proof.
  unfold comments. rewrite <- hdr_comment_hdr_del.
  destruct (hdr_comment (repeat_string "-" 70) hdr) as [h0 | e0];
    cbn [mbind result_bind fmap result_fmap]; [| reflexivity].
  rewrite for_each_commute; [reflexivity |].
  intros b [key v]. cbn [fst snd].
  destruct v; try apply hdr_comment_hdr_del.
  rewrite <- hdr_comment_hdr_del.
  destruct (hdr_comment key b) as [b0 | e1];
    cbn [mbind result_bind fmap result_fmap]; [| reflexivity].
  rewrite for_each_commute; [reflexivity |]. intros b' x.
  destruct (lsp x _ []) as [ll | e]; [| reflexivity].
  cbn [mbind result_bind].
  rewrite for_each_commute; [reflexivity |]. intros b2 il.
  apply hdr_comment_hdr_del.
Qed.

(** The block of printable lines under a printable key is written without
    exception. *)
Lemma comments_lines_ok (hdr : header) (k : string) (lines : list string) :
  printable_string k = true ->
  Forall (fun l => printable_string l = true) lines ->
  exists hdr', comments str_float hdr [(k, VList lines)] = Ok hdr'.
Proof.
  intros Hk Hlines. unfold comments.
  rewrite hdr_comment_ok by reflexivity. cbn [mbind result_bind].
  assert (Hblock : forall h, exists h',
    (h0 ← hdr_comment k h;
     for_each
       (fun hdr0 l =>
          ll ← lsp l (80 - 10 * String.length "  ") [];
          for_each
            (fun hdr1 il =>
               hdr_comment ("|" +:+ repeat_string "  " (fst il + 1) +:+ " " +:+ snd il) hdr1)
            (enumerate_from 0 ll) hdr0)
       lines h0) = Ok h').
  { intros h. rewrite hdr_comment_ok by assumption. cbn [mbind result_bind].
    apply (for_each_ok (fun l => printable_string l = true)); [| assumption].
    intros b l Hl.
    destruct (lsp_ok l (80 - 10 * String.length "  ") []) as [ll Hll]; [simpl; lia |].
    rewrite Hll. cbn [mbind result_bind].
    assert (Hpieces : Forall (fun c => printable_string c = true) ll).
    { apply printable_string_chars in Hl.
      pose proof (lsp_fuel_chars _ _ _ _ [] ll Hl ltac:(constructor) Hll) as H.
      eapply Forall_impl; [exact H |]. intros c Hc. by apply printable_string_chars. }
    assert (Hen : forall i, Forall (fun il : nat * string => printable_string (snd il) = true)
                              (enumerate_from i ll)).
    { clear Hll. induction Hpieces as [| c ll Hc _ IH]; intros i; simpl; constructor;
        [assumption | apply IH]. }
    apply (for_each_ok (fun il : nat * string => printable_string (snd il) = true));
      [| apply Hen].
    intros b1 il Hil. rewrite hdr_comment_ok; [by eauto |].
    rewrite !printable_string_app, printable_repeat_blank, Hil. reflexivity. }
  destruct (alist_mem "Written by" [(k, VList lines)]) eqn:Hmem.
  - cbn [for_each fst snd]. destruct (Hblock (Header (hdr_wcs hdr) (hdr_cards hdr)
      (hdr_comments hdr ++ split_commentary (repeat_string "-" 70))%list)) as [h' ->].
    cbn [mbind result_bind]. by eauto.
  - assert (Hset : alist_set "Written by" (VStr s) [(k, VList lines)] =
                   [(k, VList lines); ("Written by", VStr s)]).
    { unfold alist_mem in Hmem. cbn [existsb fst orb] in Hmem.
      apply orb_false_elim in Hmem as [Hne _]. cbn [alist_set]. rewrite Hne. reflexivity. }
    rewrite Hset. cbn [for_each fst snd].
    destruct (Hblock (Header (hdr_wcs hdr) (hdr_cards hdr)
      (hdr_comments hdr ++ split_commentary (repeat_string "-" 70))%list)) as [h' ->].
    cbn [mbind result_bind]. rewrite hdr_comment_ok by reflexivity.
    cbn [mbind result_bind]. by eauto.
Qed.

End BuilderLemmas.

Lemma document_wcs (today : string) (hdr : header) (docs : list (string * (pyval * string))) :
  hdr_wcs (document today hdr docs) = hdr_wcs hdr.
Proof.
  unfold document.
  apply (fold_left_inv (fun h => hdr_wcs h = hdr_wcs hdr)); [| reflexivity].
  intros b x Hb. exact Hb.
Qed.

(** The documentation cards of [build_hdr]. *)
Lemma document_cards (today : string) (w : wcs) (bibcode figN page rt : pyval) :
  hdr_cards
    (document today (Header w [] [])
       [("REFERENC", (bibcode, "ADS Bibcode"));
        ("REF_FIGN", (figN, "Figure Number"));
        ("REF_PAGE", (page, "Page Number"));
        ("CROTAX", (rt, "CROTA2 (hidden)"))]) =
    [("REFERENC", (bibcode, "ADS Bibcode"));
     ("REF_FIGN", (figN, "Figure Number"));
     ("REF_PAGE", (page, "Page Number"));
     ("CROTAX", (rt, "CROTA2 (hidden)"));
     ("DATE", (VStr (fits2day today), "Creation date (apx)"))].
Proof. reflexivity. Qed.

Lemma cd2cd_pc_some (cdelt1 cdelt2 crota2 : R) :
  exists P, cd2cd cdelt1 cdelt2 crota2 "pc" = Some P.
Proof. eexists. reflexivity. Qed.

Lemma getitem_some (d : gmap string pyval) (k : string) (v : pyval) :
  d !! k = Some v -> getitem d k = Ok v.
Proof. intros H. unfold getitem. rewrite H. reflexivity. Qed.

Lemma getitem_none (d : gmap string pyval) (k : string) :
  d !! k = None -> getitem d k = Raise (KeyError k).
Proof. intros H. unfold getitem. rewrite H. reflexivity. Qed.

Lemma ldpix_int (z : Z) : ldpix (VInt z) = Ok (IZR (z / 2)).
Proof.
  unfold ldpix, py_truediv. cbn [as_float mbind result_bind Z.eqb].
  rewrite Zfloor_half. reflexivity.
Qed.

Lemma py_truediv_float_int (x : R) (z : Z) :
  z <> 0%Z -> py_truediv (VFloat x) (VInt z) = Ok (x / IZR z)%R.
Proof.
  intros Hz. unfold py_truediv. cbn [as_float mbind result_bind].
  apply Z.eqb_neq in Hz. rewrite Hz. reflexivity.
Qed.

Lemma py_truediv_float_zero (x : R) :
  py_truediv (VFloat x) (VInt 0) = Raise ZeroDivisionError.
Proof. reflexivity. Qed.

(** The WCS object of a record with the fields of a solved report, for image
    dimensions that are not zero. *)
Lemma build_wcs_ok (img txt : gmap string pyval) (w h : Z) (ra dec xs ys rt : R) :
  image_dims img w h -> w <> 0%Z -> h <> 0%Z ->
  txt !! "ra" = Some (VFloat ra) -> txt !! "dec" = Some (VFloat dec) ->
  txt !! "xs" = Some (VFloat xs) -> txt !! "ys" = Some (VFloat ys) ->
  txt !! "rt" = Some (VFloat rt) ->
  exists P : matrix,
    cd2cd (xs / IZR w) (ys / IZR h) rt "pc" = Some P /\
    build_wcs img txt =
      Ok (Wcs ("RA---TAN", "DEC--TAN") ("deg", "deg")
              (IZR (w / 2), IZR (h / 2)) (ra, dec) P
              ((xs / IZR w)%R, (ys / IZR h)%R)).
Proof.
  intros [Hxs Hys] Hw Hh Hra Hdec Htxs Htys Hrt.
  destruct (cd2cd_pc_some (xs / IZR w) (ys / IZR h) rt) as [P HP].
  exists P. split; [exact HP |].
  unfold build_wcs.
  rewrite (getitem_some _ _ _ Hxs), (getitem_some _ _ _ Hys),
    (getitem_some _ _ _ Hra), (getitem_some _ _ _ Hdec),
    (getitem_some _ _ _ Htxs), (getitem_some _ _ _ Htys),
    (getitem_some _ _ _ Hrt).
  cbn [mbind result_bind]. rewrite !ldpix_int. cbn [mbind result_bind as_float].
  rewrite !py_truediv_float_int by assumption. cbn [mbind result_bind].
  rewrite HP. reflexivity.
Qed.

Lemma record_fields_lookups (txt : gmap string pyval) :
  record_fields txt ->
  exists (ra dec xs ys rt : R) (bibcode figN page : pyval) (lines : list string),
    txt !! "ra" = Some (VFloat ra) /\ txt !! "dec" = Some (VFloat dec) /\
    txt !! "xs" = Some (VFloat xs) /\ txt !! "ys" = Some (VFloat ys) /\
    txt !! "rt" = Some (VFloat rt) /\
    txt !! "bibcode" = Some bibcode /\ txt !! "figN" = Some figN /\
    txt !! "page" = Some page /\ txt !! "txt" = Some (VList lines).
Proof.
  intros ([ra Hra] & [dec Hdec] & [xs Hxs] & [ys Hys] & [rt Hrt] & _ &
          [bib Hbib] & [fig Hfig] & [pg Hpg] & [lines Hlines]).
  exists ra, dec, xs, ys, rt, bib, fig, pg, lines. repeat split; assumption.
Qed.

Lemma sample_txt_fields (solved : bool) : record_fields (sample_txt solved).
Proof.
  unfold record_fields. repeat split; eexists; reflexivity.
Qed.

Lemma img_dict_dims (w h : Z) : image_dims (img_dict w h) w h.
Proof. split; reflexivity. Qed.

Section BuilderTheorems.

Variable wcs_error : wcs -> option exn.
Variable str_float : R -> string.

(** A header that [build_hdr] returns is the one of its WCS object, with
    the documentation cards. *)
Lemma build_hdr_inv (today : string) (img txt : gmap string pyval) (hdr : header) :
  build_hdr wcs_error str_float today img txt = Ok hdr ->
  exists (W : wcs) (bibcode figN page rt : pyval),
    build_wcs img txt = Ok W /\ wcs_error W = None /\ hdr_wcs hdr = W /\
    txt !! "bibcode" = Some bibcode /\ txt !! "figN" = Some figN /\
    txt !! "page" = Some page /\ txt !! "rt" = Some rt /\
    hdr_cards hdr =
      [("REFERENC", (bibcode, "ADS Bibcode"));
       ("REF_FIGN", (figN, "Figure Number"));
       ("REF_PAGE", (page, "Page Number"));
       ("CROTAX", (rt, "CROTA2 (hidden)"));
       ("DATE", (VStr (fits2day today), "Creation date (apx)"))].
Proof.
  unfold build_hdr, to_header, getitem. intros H.
  destruct (build_wcs img txt) as [W |]; cbn [mbind result_bind] in H; [| discriminate].
  destruct (wcs_error W) eqn:HW; cbn [mbind result_bind] in H; [discriminate |].
  destruct (txt !! "bibcode") as [bib |]; cbn [mbind result_bind] in H; [| discriminate].
  destruct (txt !! "figN") as [fig |]; cbn [mbind result_bind] in H; [| discriminate].
  destruct (txt !! "page") as [pg |]; cbn [mbind result_bind] in H; [| discriminate].
  destruct (txt !! "rt") as [rt |]; cbn [mbind result_bind] in H; [| discriminate].
  destruct (txt !! "txt") as [lines |]; cbn [mbind result_bind] in H; [| discriminate].
  apply comments_inv in H as (Hw & Hc & _).
  exists W, bib, fig, pg, rt. repeat split; try reflexivity; assumption.
Qed.

(** [build_hdr] returns when the library accepts its WCS object and the
    lines of the report are printable. *)
Lemma build_hdr_ok (today : string) (img txt : gmap string pyval) (W : wcs)
    (bibcode figN page rt : pyval) (lines : list string) :
  build_wcs img txt = Ok W -> wcs_error W = None ->
  txt !! "bibcode" = Some bibcode -> txt !! "figN" = Some figN ->
  txt !! "page" = Some page -> txt !! "rt" = Some rt ->
  txt !! "txt" = Some (VList lines) ->
  Forall (fun l => printable_string l = true) lines ->
  exists hdr : header, build_hdr wcs_error str_float today img txt = Ok hdr.
Proof.
  intros HW Hacc Hbib Hfig Hpg Hrt Hlines Hprint.
  unfold build_hdr, to_header. rewrite HW. cbn [mbind result_bind]. rewrite Hacc.
  cbn [mbind result_bind].
  rewrite (getitem_some _ _ _ Hbib), (getitem_some _ _ _ Hfig),
    (getitem_some _ _ _ Hpg), (getitem_some _ _ _ Hrt), (getitem_some _ _ _ Hlines).
  cbn [mbind result_bind].
  apply comments_lines_ok; [reflexivity | assumption].
Qed.

(** [build_hdr] reads the clock only to write the [DATE] card: it raises
    the same exception at every time, or documents and comments a header
    that the time does not enter. *)
Lemma build_hdr_shape (img txt : gmap string pyval) :
  (exists e, forall today, build_hdr wcs_error str_float today img txt = Raise e) \/
  (exists w bibcode figN page rt lines,
     forall today,
       build_hdr wcs_error str_float today img txt =
         comments str_float
           (document today (Header w [] [])
              [("REFERENC", (bibcode, "ADS Bibcode"));
               ("REF_FIGN", (figN, "Figure Number"));
               ("REF_PAGE", (page, "Page Number"));
               ("CROTAX", (rt, "CROTA2 (hidden)"))])
           [("Original Header", lines)]).
Proof.
  unfold build_hdr, to_header.
  destruct (build_wcs img txt) as [W | e]; cbn [mbind result_bind];
    [| left; eexists; intros; reflexivity].
  destruct (wcs_error W); cbn [mbind result_bind];
    [left; eexists; intros; reflexivity |].
  repeat match goal with
    | |- context [mbind _ ?m] =>
        destruct m; cbn [mbind result_bind];
        [| left; eexists; intros; reflexivity]
    end.
  right. do 6 eexists. intros today. reflexivity.
Qed.

(** C6: for an image of [w] x [h] pixels, both positive, and a solved
    record, [build_hdr] fills a WCS object whose reference pixel is the
    floor of half of each dimension, [floor(w / 2)] and [floor(h / 2)], and
    a header that it returns is the header of this object. *)
Theorem build_hdr_crpix (today : string) (img txt : gmap string pyval) (w h : Z) :
  image_dims img w h -> (0 < w)%Z -> (0 < h)%Z -> solved_record txt ->
  exists W : wcs,
    build_wcs img txt = Ok W /\
    crpix W = (IZR (Zfloor (IZR w / 2)), IZR (Zfloor (IZR h / 2))) /\
    Zfloor (IZR w / 2) = (w / 2)%Z /\ Zfloor (IZR h / 2) = (h / 2)%Z /\
    forall hdr : header,
      build_hdr wcs_error str_float today img txt = Ok hdr ->
      hdr_wcs hdr = W /\
      crpix (hdr_wcs hdr) = (IZR (Zfloor (IZR w / 2)), IZR (Zfloor (IZR h / 2))).
Proof.
  intros Hdims Hw Hh [_ Hfields].
  apply record_fields_lookups in Hfields
    as (ra & dec & xs & ys & rt & bib & fig & pg & lines &
        Hra & Hdec & Hxs & Hys & Hrt & Hbib & Hfig & Hpg & Hlines).
  destruct (build_wcs_ok img txt w h ra dec xs ys rt) as (P & _ & HW);
    try assumption; try lia.
  eexists. split; [exact HW |].
  rewrite !Zfloor_half. cbn [crpix]. repeat split.
  - apply build_hdr_inv in H as (W' & _ & _ & _ & _ & HW' & _ & Hhw & _).
    rewrite HW in HW'. injection HW' as <-. exact Hhw.
  - apply build_hdr_inv in H as (W' & _ & _ & _ & _ & HW' & _ & Hhw & _).
    rewrite HW in HW'. injection HW' as <-. rewrite Hhw. reflexivity.
Qed.

(** C8: for a solved record and image dimensions of which one is zero,
    [build_hdr] raises at the division that computes the pixel scale
    ([ZeroDivisionError]) and returns no header. *)
Theorem build_hdr_zero_dimension (today : string) (img txt : gmap string pyval)
    (w h : Z) :
  image_dims img w h -> w = 0%Z \/ h = 0%Z -> solved_record txt ->
  build_hdr wcs_error str_float today img txt = Raise ZeroDivisionError.
Proof.
  intros [Hix Hiy] Hzero [_ Hfields].
  apply record_fields_lookups in Hfields
    as (ra & dec & xs & ys & rt & bib & fig & pg & lines &
        Hra & Hdec & Hxs & Hys & Hrt & Hbib & Hfig & Hpg & Hlines).
  unfold build_hdr, build_wcs.
  rewrite (getitem_some _ _ _ Hix), (getitem_some _ _ _ Hiy),
    (getitem_some _ _ _ Hra), (getitem_some _ _ _ Hdec),
    (getitem_some _ _ _ Hxs), (getitem_some _ _ _ Hys).
  cbn [mbind result_bind]. rewrite !ldpix_int. cbn [mbind result_bind as_float].
  destruct (Z.eq_dec w 0%Z) as [-> | Hw].
  - rewrite py_truediv_float_zero. reflexivity.
  - rewrite (py_truediv_float_int xs w Hw). cbn [mbind result_bind].
    destruct Hzero as [-> | ->]; [contradiction Hw; reflexivity |].
    rewrite py_truediv_float_zero. reflexivity.
Qed.

(** C7: a record whose [solved] is false has no other field; on such a
    record, for every image dimensions, [build_hdr] raises and returns no
    header: the exception is the [KeyError] of the first field that it
    reads, [ra].  The caller [run] tests [solved] and does not call the
    builder for this record. *)
Theorem build_hdr_unsolved_record (today : string) (img txt : gmap string pyval)
    (w h : Z) :
  txt !! "solved" = Some (VBool false) ->
  (forall k : string, k <> "solved" -> txt !! k = None) ->
  image_dims img w h ->
  build_hdr wcs_error str_float today img txt = Raise (KeyError "ra") /\
  run_hdr wcs_error str_float today img txt = Ok None.
Proof.
  intros Hsolved Hnone [Hix Hiy]. split.
  - unfold build_hdr, build_wcs.
    rewrite (getitem_some _ _ _ Hix), (getitem_some _ _ _ Hiy).
    cbn [mbind result_bind]. rewrite !ldpix_int. cbn [mbind result_bind].
    rewrite (getitem_none txt "ra") by (apply Hnone; discriminate). reflexivity.
  - unfold run_hdr. rewrite (getitem_some _ _ _ Hsolved). reflexivity.
Qed.

(** C9, as the code has it: the header of [build_hdr] is a function of the
    image, of the record and of the time of the call, and the time enters
    the [DATE] card only: without this card, the results of two calls on
    the same inputs are equal, and the card holds the time of the call as
    [fits2day] writes it.  [parse_txt] has no argument but the lines of the
    report: it reads neither the clock nor a global name that can change. *)
Theorem build_hdr_clock (today1 today2 : string) (img txt : gmap string pyval) :
  hdr_del "DATE" <$> build_hdr wcs_error str_float today1 img txt =
    hdr_del "DATE" <$> build_hdr wcs_error str_float today2 img txt /\
  (fun hdr => alist_get "DATE" (hdr_cards hdr))
      <$> build_hdr wcs_error str_float today1 img txt =
    (fun _ => Some (VStr (fits2day today1), "Creation date (apx)"))
      <$> build_hdr wcs_error str_float today1 img txt.
Proof.
  destruct (build_hdr_shape img txt)
    as [[e He] | (w & bib & fig & pg & rt & lines & Hs)].
  - rewrite !He. split; reflexivity.
  - rewrite !Hs. split.
    + rewrite !comments_hdr_del. reflexivity.
    + match goal with
      | |- context [comments str_float ?h ?st] =>
          destruct (comments str_float h st) as [hdr | e] eqn:Hc; [| reflexivity]
      end.
      apply comments_inv in Hc as (_ & Hcards & _).
      cbn [fmap result_fmap]. rewrite Hcards, document_cards. reflexivity.
Qed.

End BuilderTheorems.

Lemma sample_wcs_accepts (w : wcs) :
  fst (cdelt w) <> 0%R -> snd (cdelt w) <> 0%R ->
  (-90 <= snd (crval w) <= 90)%R ->
  sample_wcs_error w = None.
Proof.
  intros H1 H2 H3. unfold sample_wcs_error.
  destruct (Req_dec_T (fst (cdelt w)) 0); [contradiction |].
  destruct (Req_dec_T (snd (cdelt w)) 0); [contradiction |].
  destruct (Rle_dec (Rabs (snd (crval w))) 90) as [_ | Hn]; [reflexivity |].
  exfalso. apply Hn. apply Rabs_le. exact H3.
Qed.

Lemma sample_report_printable :
  Forall (fun l => printable_string l = true) sample_report.
Proof. repeat constructor. Qed.

(** The header of the sample record, at a time [today]. *)
Lemma build_hdr_sample (today : string) :
  exists hdr,
    build_hdr sample_wcs_error sample_str_float today sample_img (sample_txt true) = Ok hdr /\
    alist_get "DATE" (hdr_cards hdr) = Some (VStr (fits2day today), "Creation date (apx)").
Proof.
  destruct (build_wcs_ok sample_img (sample_txt true) 1000 800
              (567 / 10) (2415 / 100) (814539 / 10000 / 60) (591175 / 10000 / 60)
              (-179411 / 1000)) as (P & _ & HW); try reflexivity; try discriminate.
  { apply img_dict_dims. }
  destruct (build_hdr_ok sample_wcs_error sample_str_float today sample_img
              (sample_txt true) _ (VStr "2010Ciel...72..113N") (VStr "002") (VStr "002")
              (VFloat (-179411 / 1000)) sample_report HW)
    as [hdr Hb]; try reflexivity.
  { apply sample_wcs_accepts; cbn [cdelt crval fst snd]; lra. }
  { apply sample_report_printable. }
  exists hdr. split; [exact Hb |].
  apply build_hdr_inv in Hb as (_ & bib & fig & pg & rt & _ & _ & _ & _ & _ & _ & _ & ->).
  reflexivity.
Qed.

Lemma build_hdr_crpix_witness :
  exists W : wcs,
    build_wcs sample_img (sample_txt true) = Ok W /\
    crpix W = (IZR (Zfloor (1000 / 2)), IZR (Zfloor (800 / 2))) /\
    Zfloor (1000 / 2) = (1000 / 2)%Z /\ Zfloor (800 / 2) = (800 / 2)%Z /\
    forall hdr : header,
      build_hdr sample_wcs_error sample_str_float "2013-11-04 12:34:56.789012"
        sample_img (sample_txt true) = Ok hdr ->
      hdr_wcs hdr = W /\
      crpix (hdr_wcs hdr) = (IZR (Zfloor (1000 / 2)), IZR (Zfloor (800 / 2))).
Proof.
  apply (build_hdr_crpix sample_wcs_error sample_str_float "2013-11-04 12:34:56.789012"
           sample_img (sample_txt true) 1000 800).
  - apply img_dict_dims.
  - lia.
  - lia.
  - split; [reflexivity | apply sample_txt_fields].
Defined.

Lemma build_hdr_zero_dimension_witness :
  build_hdr sample_wcs_error sample_str_float "2013-11-04 12:34:56.789012"
    (img_dict 0 800) (sample_txt true) = Raise ZeroDivisionError.
Proof.
  apply (build_hdr_zero_dimension sample_wcs_error sample_str_float
           "2013-11-04 12:34:56.789012" (img_dict 0 800) (sample_txt true) 0 800).
  - apply img_dict_dims.
  - left. reflexivity.
  - split; [reflexivity | apply sample_txt_fields].
Defined.

Lemma build_hdr_unsolved_record_witness :
  build_hdr sample_wcs_error sample_str_float "2013-11-04 12:34:56.789012"
    sample_img unsolved = Raise (KeyError "ra") /\
  run_hdr sample_wcs_error sample_str_float "2013-11-04 12:34:56.789012"
    sample_img unsolved = Ok None.
Proof.
  apply (build_hdr_unsolved_record sample_wcs_error sample_str_float
           "2013-11-04 12:34:56.789012" sample_img unsolved 1000 800).
  - reflexivity.
  - intros k Hk. unfold unsolved. by rewrite lookup_singleton_ne.
  - apply img_dict_dims.
Defined.

(** C9, as stated, fails: two calls of [build_hdr] on the same image and
    the same record, made on two days, return two headers. *)
Lemma build_hdr_clock_counterexample :
  build_hdr sample_wcs_error sample_str_float "2013-11-04 12:34:56.789012"
    sample_img (sample_txt true) <>
  build_hdr sample_wcs_error sample_str_float "2013-11-05 08:00:00.000000"
    sample_img (sample_txt true).
Proof.
  destruct (build_hdr_sample "2013-11-04 12:34:56.789012") as (h1 & -> & H1).
  destruct (build_hdr_sample "2013-11-05 08:00:00.000000") as (h2 & -> & H2).
  intros [= E]. rewrite E, H2 in H1. discriminate H1.
Qed.

(** The example of the specification: the report of the docstring and an
    image of 1000 x 800 pixels. *)
Example sample_end_to_end :
  exists (rec : gmap string pyval) (hdr : header),
    parse_txt decimal_float sample_report = Ok rec /\
    rec = sample_txt true /\
    build_hdr sample_wcs_error sample_str_float "2013-11-04 12:34:56.789012"
      sample_img rec = Ok hdr /\
    crpix (hdr_wcs hdr) = (500%R, 400%R) /\
    crval (hdr_wcs hdr) = ((567 / 10)%R, (2415 / 100)%R).
Proof.
  destruct (build_hdr_sample "2013-11-04 12:34:56.789012") as (hdr & Hb & _).
  exists (sample_txt true), hdr.
  split; [reflexivity |]. split; [reflexivity |]. split; [exact Hb |].
  destruct (build_wcs_ok sample_img (sample_txt true) 1000 800
              (567 / 10) (2415 / 100) (814539 / 10000 / 60) (591175 / 10000 / 60)
              (-179411 / 1000)) as (P & _ & HW); try reflexivity; try discriminate.
  { apply img_dict_dims. }
  apply build_hdr_inv in Hb as (W & _ & _ & _ & _ & HW' & _ & -> & _).
  rewrite HW in HW'. injection HW' as <-. split; reflexivity.
Qed.

(** * Further properties of the module *)

(** ** [lsp] *)

Lemma join_empty_cons (x : string) (l : list string) : join "" (x :: l) = x +:+ join "" l.
Proof. destruct l; simpl; [by rewrite append_empty_r | reflexivity]. Qed.

Lemma join_empty_app (l1 l2 : list string) :
  join "" (l1 ++ l2) = join "" l1 +:+ join "" l2.
Proof.
  induction l1 as [| x l1 IH]; [reflexivity |].
  rewrite <- app_comm_cons, !join_empty_cons, IH, append_assoc. reflexivity.
Qed.

(** The pieces that [lsp] appends: all but the last have [n] characters,
    the last has at most [n], and together they are the line. *)
Lemma lsp_fuel_pieces (fuel : nat) (l : string) (n : nat) (p : list string) :
  (0 < n)%nat -> (String.length l < fuel)%nat ->
  exists (full : list string) (last : string),
    lsp_fuel fuel l n p = Ok (p ++ full ++ [last])%list /\
    join "" (full ++ [last]) = l /\
    Forall (fun c => String.length c = n) full /\
    (String.length last <= n)%nat /\
    (l <> "" -> last <> "").
Proof.
  intros Hn. revert l p. induction fuel as [| fuel IH]; intros l p Hlen; [lia |].
  cbn [lsp_fuel]. destruct (Nat.leb_spec (String.length l) n) as [Hle | Hgt].
  - exists [], l. repeat split; done.
  - destruct (IH (py_slice (Some (Z.of_nat n)) None l)
                (p ++ [py_slice (Some 0%Z) (Some (Z.of_nat n)) l])%list)
      as (full & last & -> & Hjoin & Hfull & Hlast & Hne).
    { rewrite length_py_slice_from. lia. }
    exists (py_slice (Some 0%Z) (Some (Z.of_nat n)) l :: full), last.
    split; [by rewrite <- app_assoc |].
    split; [| split; [| split]].
    + rewrite <- app_comm_cons, join_empty_cons, Hjoin. apply py_slice_split.
    + constructor; [| exact Hfull]. rewrite length_py_slice_to. lia.
    + exact Hlast.
    + intros _. apply Hne. intros E.
      apply (f_equal String.length) in E. rewrite length_py_slice_from in E.
      simpl in E. lia.
Qed.

(** X1: for a positive piece size, [lsp] returns the accumulator followed by
    pieces whose concatenation is the line: nothing of it is lost, added or
    reordered. *)
Theorem lsp_rejoins (l : string) (n : nat) (p : list string) :
  (0 < n)%nat ->
  exists chunks : list string,
    lsp l n p = Ok (p ++ chunks)%list /\ join "" chunks = l.
Proof.
  intros Hn.
  destruct (lsp_fuel_pieces (S (String.length l)) l n p Hn)
    as (full & last & H & Hjoin & _); [lia |].
  exists (full ++ [last])%list. split; assumption.
Qed.

Lemma lsp_rejoins_witness :
  exists chunks : list string,
    lsp "abcdefgh" 3 ["x"] = Ok (["x"] ++ chunks)%list /\ join "" chunks = "abcdefgh".
Proof. apply (lsp_rejoins "abcdefgh" 3 ["x"]). lia. Defined.

(** X2: for a positive piece size [n], every piece that [lsp] appends but
    the last has exactly [n] characters, the last has at most [n], and it
    is empty only when the line is. *)
Theorem lsp_piece_lengths (l : string) (n : nat) (p : list string) :
  (0 < n)%nat ->
  exists (full : list string) (last : string),
    lsp l n p = Ok (p ++ full ++ [last])%list /\
    Forall (fun c => String.length c = n) full /\
    (String.length last <= n)%nat /\
    (l <> "" -> last <> "").
Proof.
  intros Hn.
  destruct (lsp_fuel_pieces (S (String.length l)) l n p Hn)
    as (full & last & H & _ & Hfull & Hlast & Hne); [lia |].
  exists full, last. repeat split; assumption.
Qed.

Lemma lsp_piece_lengths_witness :
  exists (full : list string) (last : string),
    lsp "abcdefgh" 3 [] = Ok ([] ++ full ++ [last])%list /\
    Forall (fun c => String.length c = 3%nat) full /\
    (String.length last <= 3)%nat /\
    ("abcdefgh" <> "" -> last <> "").
Proof. apply (lsp_piece_lengths "abcdefgh" 3 []). lia. Defined.

(** X3: with a piece size of zero and a line that is not empty the
    recursion of [lsp] never ends: no number of calls gives a result. *)
Theorem lsp_zero_size_diverges (l : string) (p : list string) :
  l <> "" ->
  forall fuel : nat, lsp_fuel fuel l 0 p = Raise RecursionError.
Proof.
  intros Hl fuel. revert p. induction fuel as [| fuel IH]; intros p; [reflexivity |].
  cbn [lsp_fuel].
  destruct (Nat.leb_spec (String.length l) 0) as [Hle | _].
  - destruct l; [contradiction | simpl in Hle; lia].
  - assert (E : py_slice (Some (Z.of_nat 0)) None l = l).
    { apply list_ascii_inj. rewrite py_slice_from. apply drop_0. }
    rewrite E. apply IH.
Qed.

Lemma lsp_zero_size_diverges_witness :
  lsp_fuel 1000 "abc" 0 [] = Raise RecursionError.
Proof. apply (lsp_zero_size_diverges "abc" []). discriminate. Defined.

(** ** [vkey] *)

Lemma list_ascii_upper (t : string) :
  list_ascii_of_string (upper t) = map upper_ascii (list_ascii_of_string t).
Proof. induction t as [| c t IH]; simpl; [reflexivity | by rewrite IH]. Qed.

Lemma upper_ascii_idemp (c : ascii) : upper_ascii (upper_ascii c) = upper_ascii c.
Proof. destruct c as [[] [] [] [] [] [] [] []]; reflexivity. Qed.

Lemma list_ascii_vkey (k : string) :
  list_ascii_of_string (vkey k) = take 8 (map upper_ascii (list_ascii_of_string k)).
Proof.
  unfold vkey. rewrite (py_slice_to 8), list_ascii_upper. reflexivity.
Qed.

(** X4: a key validated by [vkey] has at most eight characters and no
    lower-case letter, and validating it again does not change it. *)
Theorem vkey_valid (k : string) :
  (String.length (vkey k) <= 8)%nat /\
  upper (vkey k) = vkey k /\
  vkey (vkey k) = vkey k.
Proof.
  assert (Hup : upper (vkey k) = vkey k).
  { apply list_ascii_inj. rewrite list_ascii_upper, list_ascii_vkey, <- fmap_take.
    rewrite <- list_fmap_compose. apply list_fmap_ext. intros _ c _. simpl.
    apply upper_ascii_idemp. }
  split; [| split].
  - rewrite <- length_list_ascii, list_ascii_vkey, length_take. lia.
  - exact Hup.
  - apply list_ascii_inj. rewrite (list_ascii_vkey (vkey k)), <- list_ascii_upper, Hup.
    rewrite list_ascii_vkey, take_take. f_equal.
Qed.

(** ** [document] *)

Lemma alist_get_set {V} (k K : string) (v : V) (l : list (string * V)) :
  alist_get K (alist_set k v l) = if String.eqb k K then Some v else alist_get K l.
Proof.
  induction l as [| [k' v'] l IH]; simpl; [reflexivity |].
  destruct (String.eqb_spec k' k) as [-> | Hne]; simpl;
    [destruct (String.eqb k K); reflexivity |].
  rewrite IH. destruct (String.eqb_spec k' K) as [<- | _]; [| reflexivity].
  destruct (String.eqb_spec k k') as [-> | _]; [contradiction | reflexivity].
Qed.

Lemma alist_set_fresh {V} (k : string) (v : V) (l : list (string * V)) :
  alist_mem k l = false -> alist_set k v l = (l ++ [(k, v)])%list.
Proof.
  unfold alist_mem. induction l as [| [k' v'] l IH]; simpl; [reflexivity |].
  intros H. apply orb_false_elim in H as [Hk Hl]. rewrite Hk, (IH Hl). reflexivity.
Qed.

Lemma alist_mem_keys {V} (k : string) (l : list (string * V)) :
  alist_mem k l = true <-> k ∈ map fst l.
Proof.
  unfold alist_mem. induction l as [| [k' v'] l IH]; simpl.
  - split; [discriminate | intros H; inversion H].
  - rewrite orb_true_iff, IH, elem_of_cons, String.eqb_eq. split; intros [-> | H]; auto.
Qed.

Lemma alist_set_keys {V} (k : string) (v : V) (l : list (string * V)) :
  map fst (alist_set k v l) =
    if alist_mem k l then map fst l else (map fst l ++ [k])%list.
Proof.
  unfold alist_mem. induction l as [| [k' v'] l IH]; simpl; [reflexivity |].
  destruct (String.eqb_spec k' k) as [-> | Hne]; simpl; [reflexivity |].
  rewrite IH. destruct (existsb _ l); reflexivity.
Qed.

(** The cards after the loop of [document]. *)
Lemma document_loop_cards (docs : list (string * (pyval * string))) (hdr : header) :
  hdr_cards (fold_left (fun hdr kv => hdr_set (vkey (fst kv)) (snd kv) hdr) docs hdr) =
    fold_left (fun cs kv => alist_set (vkey (fst kv)) (snd kv) cs) docs (hdr_cards hdr).
Proof.
  revert hdr. induction docs as [| kv docs IH]; intros hdr; simpl; [reflexivity |].
  rewrite IH. reflexivity.
Qed.

Lemma loop_untouched (K : string) (docs : list (string * (pyval * string)))
    (cs : list (string * (pyval * string))) :
  Forall (fun kv => vkey (fst kv) <> K) docs ->
  alist_get K (fold_left (fun cs kv => alist_set (vkey (fst kv)) (snd kv) cs) docs cs) =
    alist_get K cs.
Proof.
  intros H. revert cs. induction H as [| kv docs Hkv _ IH]; intros cs; simpl; [reflexivity |].
  rewrite IH, alist_get_set.
  destruct (String.eqb_spec (vkey (fst kv)) K); [contradiction | reflexivity].
Qed.


Lemma loop_keys_nodup (docs cs : list (string * (pyval * string))) :
  NoDup (map fst cs) ->
  NoDup (map fst (fold_left (fun cs kv => alist_set (vkey (fst kv)) (snd kv) cs) docs cs)).
Proof.
  revert cs. induction docs as [| kv docs IH]; intros cs Hcs; simpl; [assumption |].
  apply IH. rewrite alist_set_keys.
  destruct (alist_mem (vkey (fst kv)) cs) eqn:Hmem; [assumption |].
  apply NoDup_app. split; [assumption |]. split; [| apply NoDup_singleton].
  intros x Hx Hx'. apply list_elem_of_singleton in Hx' as ->.
  apply alist_mem_keys in Hx. congruence.
Qed.

(** The dictionary that [document] iterates over. *)
Lemma document_unfold (today : string) (hdr : header)
    (docs : list (string * (pyval * string))) :
  exists docs',
    hdr_cards (document today hdr docs) =
      fold_left (fun cs kv => alist_set (vkey (fst kv)) (snd kv) cs) docs' (hdr_cards hdr) /\
    (alist_mem "DATE" docs = true /\ docs' = docs \/
     alist_mem "DATE" docs = false /\
     docs' = (docs ++ [("DATE", (VStr (fits2day today), "Creation date (apx)"))])%list).
Proof.
  unfold document. rewrite document_loop_cards.
  destruct (alist_mem "DATE" docs) eqn:Hmem.
  - exists docs. split; [reflexivity | left; by split].
  - eexists. split; [reflexivity |]. right. split; [reflexivity |].
    by apply alist_set_fresh.
Qed.





(** X7: [document] leaves alone every card whose key is not [DATE] and is
    not what [vkey] makes of a key of the documentation. *)
Theorem document_keeps_other_cards (today : string) (hdr : header) (K : string)
    (docs : list (string * (pyval * string))) :
  K <> "DATE" ->
  Forall (fun kv => vkey (fst kv) <> K) docs ->
  alist_get K (hdr_cards (document today hdr docs)) = alist_get K (hdr_cards hdr).
Proof.
  intros HK Hdocs.
  destruct (document_unfold today hdr docs) as (docs' & -> & [[_ ->] | [_ ->]]).
  - by apply loop_untouched.
  - apply loop_untouched. apply Forall_app. split; [assumption |].
    constructor; [| constructor]. intros E. apply HK. symmetry. exact E.
Qed.

Lemma document_keeps_other_cards_witness :
  alist_get "NAXIS"
    (hdr_cards (document "2013-11-04 12:34:56.789012"
                  (sample_header [("NAXIS", (VInt 2, ""))])
                  [("REFERENC", (VStr "b", "ADS Bibcode"))])) =
    alist_get "NAXIS" (hdr_cards (sample_header [("NAXIS", (VInt 2, ""))])).
Proof.
  apply (document_keeps_other_cards "2013-11-04 12:34:56.789012"
           (sample_header [("NAXIS", (VInt 2, ""))]) "NAXIS"
           [("REFERENC", (VStr "b", "ADS Bibcode"))]).
  - discriminate.
  - constructor; [discriminate | constructor].
Defined.

(** X8: when every key of the documentation is turned by [vkey] into a
    keyword under which a card is set by key, [document] never gives two
    cards the same key: a header whose card keys are distinct keeps them
    distinct. *)
Theorem document_keys_distinct (today : string) (hdr : header)
    (docs : list (string * (pyval * string))) :
  Forall (fun kv => card_keyword (vkey (fst kv)) = true) docs ->
  NoDup (map fst (hdr_cards hdr)) ->
  NoDup (map fst (hdr_cards (document today hdr docs))).
Proof.
  intros _ H. destruct (document_unfold today hdr docs) as (docs' & -> & _).
  by apply loop_keys_nodup.
Qed.

Lemma document_keys_distinct_witness :
  NoDup (map fst
    (hdr_cards (document "2013-11-04 12:34:56.789012"
                  (sample_header [("NAXIS", (VInt 2, ""))])
                  [("naxis", (VInt 3, "")); ("NAXIS", (VInt 4, ""))]))).
Proof.
  apply document_keys_distinct.
  - repeat constructor.
  - simpl. apply NoDup_singleton.
Defined.

(** ** [comments] *)

Lemma lsp_short (l : string) (n : nat) (p : list string) :
  (String.length l <= n)%nat -> lsp l n p = Ok (p ++ [l])%list.
Proof.
  intros H. unfold lsp. cbn [lsp_fuel].
  destruct (Nat.leb_spec (String.length l) n); [reflexivity | lia].
Qed.

Lemma hdr_comment_short (t : string) (hdr : header) :
  printable_string t = true -> (String.length t <= 72)%nat ->
  hdr_comment t hdr =
    Ok (Header (hdr_wcs hdr) (hdr_cards hdr) (hdr_comments hdr ++ [t])%list).
Proof.
  intros Hp Hl. unfold hdr_comment, split_commentary. rewrite Hp.
  destruct (Nat.leb_spec (String.length t) 72); [reflexivity | lia].
Qed.

Lemma plain_text_printable (t : string) :
  plain_text t = true -> printable_string t = true.
Proof.
  unfold plain_text. intros H.
  apply andb_prop in H as [H _]. apply andb_prop in H as [H _]. exact H.
Qed.

Section Comments.

Variable str_float : R -> string.

(** X9: [comments] returns a header or raises the [ValueError] of a text
    that a card cannot hold, and nothing else: the recursion of [lsp] on
    pieces of sixty characters always ends.  The header that it returns has
    the WCS keywords and the cards set by key of the header that it was
    given, the comments that were there, and after them the comments that
    it adds, the first one a rule of seventy dashes. *)
Theorem comments_appends (hdr : header) (stuff : list (string * pyval)) :
  (exists cs : list string,
     comments str_float hdr stuff =
       Ok (Header (hdr_wcs hdr) (hdr_cards hdr)
             (hdr_comments hdr ++ repeat_string "-" 70 :: cs)%list)) \/
  comments str_float hdr stuff = Raise ValueError.
Proof.
  destruct (comments str_float hdr stuff) as [[w c cm] | e] eqn:E.
  - left. apply comments_inv in E as (Hw & Hc & cs & Hcs).
    cbn [hdr_wcs hdr_cards hdr_comments] in Hw, Hc, Hcs. subst.
    exists cs. reflexivity.
  - right. apply comments_raise in E as ->. reflexivity.
Qed.

(** X10: for a key [k] of at most 72 characters and a list of lines of at
    most sixty characters, all of them texts that a card holds as they are,
    [comments] returns; the comments added are the rule and, for the key,
    the key and then every line after a bar and three spaces, in the order
    of the list, with the name of the module as its writer before or after
    them. *)
Theorem comments_short_lines (hdr : header) (k : string) (lines : list string) :
  k <> "Written by" ->
  plain_text k = true -> (String.length k <= 72)%nat ->
  Forall (fun l => plain_text l = true /\ (String.length l <= 60)%nat) lines ->
  exists pre post : list string,
    comments str_float hdr [(k, VList lines)] =
      Ok (Header (hdr_wcs hdr) (hdr_cards hdr)
            (hdr_comments hdr ++
             repeat_string "-" 70 :: pre ++
             (k :: map (fun l => "|   " +:+ l) lines) ++ post)%list) /\
    (pre ++ post)%list ≡ₚ ["Written by process_astrom.py"].
Proof.
  intros Hk Hpk Hlk Hlines. exists [], ["Written by process_astrom.py"].
  split; [| reflexivity].
  apply String.eqb_neq in Hk. apply plain_text_printable in Hpk.
  unfold comments, alist_mem. cbn [existsb fst snd orb alist_set]. rewrite Hk.
  rewrite (hdr_comment_short (repeat_string "-" 70) hdr) by (vm_compute; first [reflexivity | lia]).
  cbn [orb alist_set for_each fst snd mbind result_bind].
  rewrite (hdr_comment_short k) by assumption.
  cbn [mbind result_bind hdr_wcs hdr_cards hdr_comments].
  change (80 - 10 * String.length "  ")%nat with 60%nat.
  assert (Hloop : forall h,
    for_each
      (fun hdr0 l =>
         ll ← lsp l 60 [];
         for_each
           (fun hdr1 il =>
              hdr_comment ("|" +:+ repeat_string "  " (fst il + 1) +:+ " " +:+ snd il) hdr1)
           (enumerate_from 0 ll) hdr0)
      lines h =
    Ok (Header (hdr_wcs h) (hdr_cards h)
          (hdr_comments h ++ map (fun l => "|   " +:+ l) lines)%list)).
  { induction Hlines as [| l lines [Hl Hl60] _ IH]; intros h.
    - cbn [for_each map]. rewrite app_nil_r. by destruct h.
    - cbn [for_each]. rewrite (lsp_short l 60 []) by assumption.
      cbn [mbind result_bind app enumerate_from for_each fst snd].
      change ("|" +:+ repeat_string "  " (0 + 1) +:+ " " +:+ l) with ("|   " +:+ l).
      rewrite (hdr_comment_short ("|   " +:+ l)).
      + cbn [mbind result_bind]. rewrite IH.
        cbn [hdr_wcs hdr_cards hdr_comments map]. rewrite <- app_assoc. reflexivity.
      + rewrite printable_string_app. apply andb_true_intro.
        split; [reflexivity | by apply plain_text_printable].
      + rewrite length_append. simpl. lia. }
  rewrite Hloop. cbn [mbind result_bind hdr_wcs hdr_cards hdr_comments].
  change ("Written by" +:+ " " +:+ s) with "Written by process_astrom.py".
  rewrite (hdr_comment_short "Written by process_astrom.py")
    by (vm_compute; first [reflexivity | lia]).
  cbn [hdr_wcs hdr_cards hdr_comments].
  rewrite <- !app_assoc. reflexivity.
Qed.

End Comments.

Lemma comments_short_lines_witness :
  exists pre post : list string,
    comments sample_str_float (sample_header [])
      [("Original Header", VList ["(56.7, 24.15)"; "81.4539 x 59.1175 arcminutes"])] =
      Ok (Header (hdr_wcs (sample_header [])) (hdr_cards (sample_header []))
            (hdr_comments (sample_header []) ++
             repeat_string "-" 70 :: pre ++
             ("Original Header" ::
              map (fun l => "|   " +:+ l)
                ["(56.7, 24.15)"; "81.4539 x 59.1175 arcminutes"]) ++ post)%list) /\
    (pre ++ post)%list ≡ₚ ["Written by process_astrom.py"].
Proof.
  apply (comments_short_lines sample_str_float (sample_header []) "Original Header"
           ["(56.7, 24.15)"; "81.4539 x 59.1175 arcminutes"]).
  - discriminate.
  - reflexivity.
  - simpl. lia.
  - repeat constructor; simpl; lia.
Defined.

(** ** Splitting and joining *)

Lemma py_split_concat (c : ascii) (a b : string) :
  py_split c (a +:+ String c b) = (py_split c a ++ py_split c b)%list.
Proof.
  induction a as [| x a IH].
  - change (py_split c (String c b) = "" :: py_split c b). simpl.
    rewrite Ascii.eqb_refl. reflexivity.
  - change (py_split c (String x (a +:+ String c b)) =
            (py_split c (String x a) ++ py_split c b)%list).
    simpl. rewrite IH. destruct (Ascii.eqb x c); [reflexivity |].
    destruct (py_split_cons c a) as (tok & rest & ->). reflexivity.
Qed.

Lemma py_split_no_sep (c : ascii) (a : string) :
  Forall (fun x => x <> c) (list_ascii_of_string a) -> py_split c a = [a].
Proof.
  induction a as [| x a IH]; simpl; [reflexivity |].
  intros H. inversion H as [| ? ? Hx Ha]; subst.
  destruct (Ascii.eqb_spec x c) as [-> | _]; [contradiction |].
  rewrite (IH Ha). reflexivity.
Qed.

Lemma join_split (c : ascii) (t : string) : join (String c "") (py_split c t) = t.
Proof.
  induction t as [| x t IH]; [reflexivity |].
  simpl. destruct (Ascii.eqb_spec x c) as [-> | Hne].
  - destruct (py_split_cons c t) as (tok & rest & E). rewrite E in *.
    change (join (String c "") ("" :: tok :: rest))
      with (String c (join (String c "") (tok :: rest))).
    by rewrite IH.
  - destruct (py_split_cons c t) as (tok & rest & E). rewrite E in *.
    destruct rest as [| tok' rest].
    + simpl in *. by rewrite IH.
    + change (join (String c "") (String x tok :: tok' :: rest))
        with (String x (join (String c "") (tok :: tok' :: rest))).
      by rewrite IH.
Qed.

Lemma py_slice_list_init {A} (l : list A) (x : A) :
  py_slice_list None (Some (-1)%Z) (l ++ [x]) = l.
Proof.
  unfold py_slice_list, norm_index. cbv [default from_option Datatypes.id].
  rewrite length_app. cbn [length].
  destruct (Z.ltb_spec 0 0) as [? | _]; [lia |].
  destruct (Z.ltb_spec (-1) 0) as [_ | ?]; [| lia].
  replace (Z.to_nat (Z.min 0 (Z.of_nat (length l + 1)))) with 0%nat by lia.
  replace (Z.to_nat (Z.max (-1 + Z.of_nat (length l + 1)) 0 -
                     Z.min 0 (Z.of_nat (length l + 1)))) with (length l) by lia.
  rewrite drop_0, take_app_length. reflexivity.
Qed.

(** ** [run]: the names of the two files *)

(** X11: for a file name made of a stem [r], a dot and an extension without
    dot, [run] looks for the image [r.png] and the report [r.txt]; dots in
    the stem are kept. *)
Theorem run_paths_stem (r ext : string) :
  Forall (fun x => x <> "."%char) (list_ascii_of_string ext) ->
  run_paths (r +:+ "." +:+ ext) = (r +:+ ".png", r +:+ ".txt").
Proof.
  intros Hext. unfold run_paths.
  change (r +:+ "." +:+ ext) with (r +:+ String "." ext).
  rewrite py_split_concat, (py_split_no_sep "." ext Hext), py_slice_list_init.
  rewrite (join_split "." r). reflexivity.
Qed.

Lemma run_paths_stem_witness :
  run_paths ("2010Ciel...72..113N-002-002" +:+ "." +:+ "png") =
    ("2010Ciel...72..113N-002-002" +:+ ".png", "2010Ciel...72..113N-002-002" +:+ ".txt").
Proof.
  apply (run_paths_stem "2010Ciel...72..113N-002-002" "png").
  repeat constructor; discriminate.
Defined.

(** X12: for a file name without dot, the stem is empty: [run] looks for
    the files [.png] and [.txt], whatever the name. *)
Theorem run_paths_no_dot (f : string) :
  Forall (fun x => x <> "."%char) (list_ascii_of_string f) ->
  run_paths f = (".png", ".txt").
Proof.
  intros Hf. unfold run_paths. rewrite (py_split_no_sep "." f Hf). reflexivity.
Qed.

Lemma run_paths_no_dot_witness : run_paths "scanpng" = (".png", ".txt").
Proof. apply run_paths_no_dot. repeat constructor; discriminate. Defined.

(** ** [main]: the files passed to [run] *)

Lemma py_slice_last3 (f : string) :
  list_ascii_of_string (py_slice (Some (-3)%Z) None f) =
    drop (String.length f - 3) (list_ascii_of_string f).
Proof.
  unfold py_slice, norm_index. cbv [default from_option Datatypes.id].
  rewrite list_ascii_substring.
  destruct (Z.ltb_spec (-3) 0) as [_ | ?]; [| lia].
  destruct (Z.ltb_spec (Z.of_nat (String.length f)) 0) as [? | _]; [lia |].
  replace (Z.to_nat (Z.max (-3 + Z.of_nat (String.length f)) 0))
    with (String.length f - 3)%nat by lia.
  apply take_ge. rewrite length_drop, length_list_ascii. lia.
Qed.

(** X13: [main] runs exactly the entries of the directory whose name ends
    with the three characters [png], with or without a dot before them. *)
Theorem main_files_suffix (listing : list string) (f : string) :
  In f (main_files listing) <-> In f listing /\ exists r, f = r +:+ "png".
Proof.
  unfold main_files. rewrite filter_In, String.eqb_eq.
  apply and_iff_compat_l. split.
  - intros H. exists (string_of_list_ascii
                        (take (String.length f - 3) (list_ascii_of_string f))).
    apply list_ascii_inj.
    rewrite list_ascii_app, list_ascii_of_string_of_list_ascii, <- H, py_slice_last3.
    symmetry. apply take_drop.
  - intros [r ->]. apply list_ascii_inj.
    rewrite py_slice_last3, length_append, list_ascii_app.
    replace (String.length r + String.length "png" - 3)%nat
      with (length (list_ascii_of_string r)) by (rewrite length_list_ascii; simpl; lia).
    apply drop_app_length.
Qed.

(** ** [fits2day] *)

Lemma lstrip_with_head (p : ascii -> bool) (x : ascii) (l : list ascii) :
  p x = false -> lstrip_with p (x :: l) = x :: l.
Proof. intros H. simpl. rewrite H. reflexivity. Qed.

(** Stripping does nothing to a string that neither begins nor ends with a
    stripped character. *)
Lemma strip_with_fixed (p : ascii -> bool) (x z : ascii) (l : list ascii) :
  p x = false -> p z = false ->
  strip_with p (string_of_list_ascii (x :: l ++ [z])) =
    string_of_list_ascii (x :: l ++ [z]).
Proof.
  intros Hx Hz. unfold strip_with. f_equal.
  rewrite list_ascii_of_string_of_list_ascii, lstrip_with_head by assumption.
  change (x :: l ++ [z])%list with ((x :: l) ++ [z])%list.
  rewrite rev_app_distr.
  change (rev [z] ++ rev (x :: l))%list with (z :: rev (x :: l)).
  rewrite lstrip_with_head by assumption.
  change (rev (z :: rev (x :: l))) with (rev (rev (x :: l)) ++ [z])%list.
  rewrite rev_involutive. reflexivity.
Qed.

Lemma not_space_not_blank (c : ascii) : py_isspace c = false -> Ascii.eqb " " c = false.
Proof.
  intros H. destruct (Ascii.eqb_spec " " c) as [<- | _]; [discriminate H | reflexivity].
Qed.

Lemma py_split_ws_last (x : ascii) : py_isspace x = false -> py_split_ws (String x "") = [String x ""].
Proof. intros H. simpl. rewrite H. reflexivity. Qed.

Lemma py_split_ws_before_space (x c : ascii) (t : string) :
  py_isspace x = false -> py_isspace c = true ->
  py_split_ws (String x (String c t)) = String x "" :: py_split_ws t.
Proof. intros Hx Hc. simpl. rewrite Hx, Hc. reflexivity. Qed.

Lemma py_split_ws_inside (x y : ascii) (t : string) :
  py_isspace x = false -> py_isspace y = false ->
  py_split_ws (String x (String y t)) =
    match py_split_ws (String y t) with
    | tok :: rest => String x tok :: rest
    | [] => [String x ""]
    end.
Proof.
  intros Hx Hy.
  change (py_split_ws (String x (String y t))) with
    (if py_isspace x then py_split_ws (String y t)
     else if py_isspace y then String x "" :: py_split_ws (String y t)
     else match py_split_ws (String y t) with
          | tok :: rest => String x tok :: rest
          | [] => [String x ""]
          end).
  rewrite Hx, Hy. reflexivity.
Qed.

Lemma py_split_ws_word (w : string) :
  w <> "" -> Forall (fun c => py_isspace c = false) (list_ascii_of_string w) ->
  py_split_ws w = [w].
Proof.
  induction w as [| x w IH]; [contradiction |]. intros _ H.
  inversion H as [| ? ? Hx Hw]; subst.
  destruct w as [| y w]; [by apply py_split_ws_last |].
  inversion Hw as [| ? ? Hy _]; subst.
  rewrite py_split_ws_inside by assumption.
  rewrite IH; [reflexivity | discriminate | assumption].
Qed.

Lemma py_split_ws_word_space (w : string) (c : ascii) (t : string) :
  w <> "" -> Forall (fun c => py_isspace c = false) (list_ascii_of_string w) ->
  py_isspace c = true ->
  py_split_ws (w +:+ String c t) = w :: py_split_ws t.
Proof.
  intros Hne H Hc. induction w as [| x w IH]; [contradiction |].
  inversion H as [| ? ? Hx Hw]; subst.
  destruct w as [| y w].
  - change (String x "" +:+ String c t) with (String x (String c t)).
    by apply py_split_ws_before_space.
  - inversion Hw as [| ? ? Hy _]; subst.
    change (String x (String y w) +:+ String c t)
      with (String x (String y (w +:+ String c t))).
    rewrite py_split_ws_inside by assumption.
    change (String y (w +:+ String c t)) with (String y w +:+ String c t).
    rewrite IH; [reflexivity | discriminate | assumption].
Qed.

(** X14: for a date and a time without whitespace, of ten and of at least
    eight characters, separated by one space, as [str] writes a [datetime],
    [fits2day] returns the date, a [T] and the first eight characters of the
    time: the fraction of the second is cut. *)
Theorem fits2day_iso (d t : string) :
  Forall (fun c => py_isspace c = false) (list_ascii_of_string d) ->
  Forall (fun c => py_isspace c = false) (list_ascii_of_string t) ->
  String.length d = 10%nat -> (8 <= String.length t)%nat ->
  fits2day (d +:+ " " +:+ t) = d +:+ "T" +:+ substring 0 8 t.
Proof.
  intros Hd Ht Hld Hlt.
  assert (Hdne : d <> "") by (intros ->; discriminate Hld).
  assert (Htne : t <> "") by (intros ->; simpl in Hlt; lia).
  assert (Hstrip : strip_spaces (d +:+ " " +:+ t) = d +:+ " " +:+ t).
  { destruct d as [| x d]; [contradiction |].
    inversion Hd as [| ? ? Hx _]; subst.
    assert (Hl : list_ascii_of_string t <> []) by (destruct t; [contradiction | discriminate]).
    destruct (exists_last Hl) as (m & z & Hm).
    assert (Hz : py_isspace z = false).
    { rewrite Hm in Ht. apply Forall_app in Ht as [_ Hz]. by inversion Hz. }
    assert (E : String x d +:+ " " +:+ t =
                string_of_list_ascii (x :: (list_ascii_of_string d ++ " "%char :: m) ++ [z])).
    { apply list_ascii_inj.
      rewrite list_ascii_of_string_of_list_ascii, !list_ascii_app. simpl.
      rewrite Hm, <- app_assoc. reflexivity. }
    rewrite E. apply strip_with_fixed; by apply not_space_not_blank. }
  unfold fits2day. rewrite Hstrip.
  change (d +:+ " " +:+ t) with (d +:+ String " " t).
  rewrite py_split_ws_word_space, py_split_ws_word by (assumption || reflexivity).
  change (join "T" [d; t]) with (d +:+ "T" +:+ t).
  apply list_ascii_inj.
  rewrite (py_slice_to 19), !list_ascii_app, list_ascii_substring, drop_0.
  rewrite take_app_ge by (rewrite length_list_ascii; lia).
  rewrite length_list_ascii, Hld. reflexivity.
Qed.

Lemma fits2day_iso_witness :
  fits2day ("2013-11-04" +:+ " " +:+ "12:34:56.789012") =
    "2013-11-04" +:+ "T" +:+ substring 0 8 "12:34:56.789012".
Proof.
  apply (fits2day_iso "2013-11-04" "12:34:56.789012").
  - repeat constructor.
  - repeat constructor.
  - reflexivity.
  - simpl. lia.
Defined.

Lemma py_split_ws_tokens (t : string) :
  Forall (fun tok => Forall (fun c => py_isspace c = false) (list_ascii_of_string tok))
    (py_split_ws t).
Proof.
  induction t as [| x t IH]; [constructor |].
  destruct (py_isspace x) eqn:Hx.
  - simpl. rewrite Hx. exact IH.
  - destruct t as [| y t].
    + rewrite py_split_ws_last by assumption. repeat constructor. assumption.
    + destruct (py_isspace y) eqn:Hy.
      * rewrite py_split_ws_before_space by assumption.
        constructor; [repeat constructor; assumption |].
        simpl in IH. rewrite Hy in IH. exact IH.
      * rewrite py_split_ws_inside by assumption.
        destruct (py_split_ws (String y t)) as [| tok rest].
        -- repeat constructor. assumption.
        -- inversion IH as [| ? ? Htok Hrest]; subst.
           constructor; [| assumption]. simpl. constructor; assumption.
Qed.

Lemma join_chars (sep : string) (P : ascii -> Prop) (l : list string) :
  Forall P (list_ascii_of_string sep) ->
  Forall (fun tok => Forall P (list_ascii_of_string tok)) l ->
  Forall P (list_ascii_of_string (join sep l)).
Proof.
  intros Hsep Hl. induction Hl as [| tok l Htok Hl IH]; [constructor |].
  destruct l as [| tok' l]; [exact Htok |].
  change (join sep (tok :: tok' :: l)) with (tok +:+ sep +:+ join sep (tok' :: l)).
  rewrite !list_ascii_app. repeat (apply Forall_app; split); assumption.
Qed.

(** X15: whatever the clock gives, the string of [fits2day] has at most
    nineteen characters and holds no whitespace. *)
Theorem fits2day_bounded (today : string) :
  (String.length (fits2day today) <= 19)%nat /\
  Forall (fun c => py_isspace c = false) (list_ascii_of_string (fits2day today)).
Proof.
  unfold fits2day. split.
  - rewrite (length_py_slice_to 19). lia.
  - rewrite (py_slice_to 19). apply Forall_take.
    apply join_chars; [repeat constructor | apply py_split_ws_tokens].
Qed.

(** ** [parse_filename] *)

(** X16: for a file name [bibcode-page-figN.ext] whose bibcode and page hold
    no dash and whose figure number holds neither dash nor dot,
    [parse_filename] returns these three parts under their keys; dots in
    the bibcode are kept and the extension is dropped. *)
Theorem parse_filename_parts (bibcode page figN ext : string) :
  Forall (fun x => x <> "-"%char) (list_ascii_of_string bibcode) ->
  Forall (fun x => x <> "-"%char) (list_ascii_of_string page) ->
  Forall (fun x => x <> "-"%char) (list_ascii_of_string figN) ->
  Forall (fun x => x <> "."%char) (list_ascii_of_string figN) ->
  Forall (fun x => x <> "-"%char) (list_ascii_of_string ext) ->
  parse_filename (bibcode +:+ "-" +:+ page +:+ "-" +:+ figN +:+ "." +:+ ext) =
    <["bibcode" := bibcode]> (<["page" := page]> (<["figN" := figN]> ∅)).
Proof.
  intros Hb Hp Hf Hfd He. unfold parse_filename.
  change (bibcode +:+ "-" +:+ page +:+ "-" +:+ figN +:+ "." +:+ ext)
    with (bibcode +:+ String "-" (page +:+ String "-" (figN +:+ String "." ext))).
  rewrite !py_split_concat, (py_split_no_sep "-" bibcode Hb), (py_split_no_sep "-" page Hp).
  rewrite (py_split_no_sep "-" (figN +:+ String "." ext)).
  - cbn [app length Nat.sub List.last].
    rewrite py_split_concat, (py_split_no_sep "." figN Hfd). reflexivity.
  - rewrite list_ascii_app. apply Forall_app. split; [assumption |].
    constructor; [discriminate | assumption].
Qed.

Lemma parse_filename_parts_witness :
  parse_filename ("2010Ciel...72..113N" +:+ "-" +:+ "002" +:+ "-" +:+ "002" +:+ "." +:+ "ppm") =
    <["bibcode" := "2010Ciel...72..113N"]> (<["page" := "002"]> (<["figN" := "002"]> ∅)).
Proof.
  apply (parse_filename_parts "2010Ciel...72..113N" "002" "002" "ppm");
    repeat constructor; discriminate.
Defined.

(** X17: the dictionary of [parse_filename] always has the key [bibcode]
    and never a key other than [bibcode], [page] and [figN], whatever the
    number of dashes in the name. *)
Theorem parse_filename_keys (f : string) :
  is_Some (parse_filename f !! "bibcode") /\
  forall k : string,
    is_Some (parse_filename f !! k) -> k = "bibcode" \/ k = "page" \/ k = "figN".
Proof.
  unfold parse_filename. split.
  - destruct (py_split_cons "-" f) as (tok & rest & ->).
    destruct rest as [| tok' rest]; cbn [length Nat.sub]; [by eexists |].
    change (<[length rest + 1 - 0 := ?x]> (tok :: tok' :: rest))
      with (tok :: <[length rest + 1 - 0 - 1 := x]> (tok' :: rest)).
    simpl. rewrite lookup_insert_eq. by eexists.
  - intros k [v Hv].
    apply elem_of_list_to_map_2, elem_of_zip_l in Hv. cbn [fst] in Hv.
    repeat (apply elem_of_cons in Hv as [-> | Hv]; [by auto |]).
    inversion Hv.
Qed.

(** ** More on [parse_txt] *)

Lemma lstrip_with_idemp (p : ascii -> bool) (l : list ascii) :
  lstrip_with p (lstrip_with p l) = lstrip_with p l.
Proof.
  induction l as [| x l IH]; [reflexivity |].
  simpl. destruct (p x) eqn:Hx; [exact IH |]. simpl. rewrite Hx. reflexivity.
Qed.

Lemma lstrip_with_suffix (p : ascii -> bool) (l : list ascii) :
  exists pre, l = (pre ++ lstrip_with p l)%list.
Proof.
  induction l as [| x l [pre IH]]; [by exists [] |].
  simpl. destruct (p x); [| by exists []].
  exists (x :: pre). simpl. by rewrite <- IH.
Qed.

Lemma lstrip_with_head_cases (p : ascii -> bool) (l : list ascii) :
  lstrip_with p l = [] \/ exists x m, lstrip_with p l = x :: m /\ p x = false.
Proof.
  induction l as [| x l IH]; [by left |].
  simpl. destruct (p x) eqn:Hx; [exact IH |]. right. by eauto.
Qed.

(** Stripping twice is stripping once. *)
Lemma strip_with_idemp (p : ascii -> bool) (t : string) :
  strip_with p (strip_with p t) = strip_with p t.
Proof.
  unfold strip_with. rewrite list_ascii_of_string_of_list_ascii.
  set (l1 := lstrip_with p (list_ascii_of_string t)).
  set (l2 := lstrip_with p (rev l1)).
  assert (Hfix : lstrip_with p (rev l2) = rev l2).
  { destruct (lstrip_with_suffix p (rev l1)) as [pre Hpre]. fold l2 in Hpre.
    assert (Hl1 : l1 = (rev l2 ++ rev pre)%list).
    { rewrite <- (rev_involutive l1), Hpre, rev_app_distr. reflexivity. }
    destruct (rev l2) as [| h r] eqn:Hr; [reflexivity |].
    destruct (lstrip_with_head_cases p (list_ascii_of_string t)) as [E | (x & m & E & Hx)];
      fold l1 in E; rewrite E in Hl1; [discriminate Hl1 |].
    injection Hl1 as -> _. apply lstrip_with_head. exact Hx. }
  f_equal. rewrite Hfix, rev_involutive. subst l2.
  rewrite lstrip_with_idemp. reflexivity.
Qed.

Section MoreParser.

Variable float : string -> option R.

(** X18: the whitespace around the lines of the report does not count:
    [parse_txt] gives the same result on the stripped lines as on the
    lines. *)
Theorem parse_txt_strips (lines : list string) :
  parse_txt float (map strip lines) = parse_txt float lines.
Proof.
  unfold parse_txt. rewrite map_map.
  rewrite (map_ext (fun x => strip (strip x)) strip); [reflexivity |].
  intros a. apply strip_with_idemp.
Qed.

(** A report of fewer than five lines, other than three, gives no record. *)
Lemma parse_txt_short_report (lines : list string) :
  (length lines < 5)%nat -> length lines <> 3%nat ->
  is_ok (parse_txt float lines) = false.
Proof.
  intros Hlt Hne.
  destruct (parse_txt float lines) as [rec | e] eqn:H; [exfalso | reflexivity].
  unfold parse_txt in H.
  destruct lines as [| a [| b [| c [| d [| e lines]]]]]; simpl in Hlt, Hne; try lia;
    cbn [map length Nat.eqb] in H.
  - discriminate H.
  - change (py_index [strip a] 1) with (@Raise string IndexError) in H.
    inv_ok H. discriminate H.
  - change (py_index [strip a; strip b] 2) with (@Raise string IndexError) in H.
    inv_ok H. discriminate H.
  - change (py_index [strip a; strip b; strip c; strip d] 4)
      with (@Raise string IndexError) in H.
    inv_ok H. discriminate H.
Qed.

(** X19: [parse_txt] returns a record in two cases only: the report has
    three lines and the record is the unsolved one, or the report has five
    lines or more and the record has [solved] true and every field of a
    solved record.  On a report of any other length it raises. *)
Theorem parse_txt_result_shape (lines : list string) (rec : gmap string pyval) :
  parse_txt float lines = Ok rec ->
  (length lines = 3%nat /\ rec = unsolved) \/
  ((5 <= length lines)%nat /\ solved_record rec).
Proof.
  intros H.
  destruct (Nat.eq_dec (length lines) 3) as [H3 | H3].
  - left. split; [assumption |].
    unfold parse_txt in H. rewrite length_map, H3 in H. by injection H as <-.
  - right. split.
    + destruct (Nat.lt_ge_cases (length lines) 5) as [Hlt | Hge]; [| assumption].
      pose proof (parse_txt_short_report lines Hlt H3) as Hno.
      rewrite H in Hno. discriminate Hno.
    + destruct (parse_txt_record float lines rec H) as [-> | Hs]; [| assumption].
      exfalso. unfold parse_txt in H. rewrite length_map in H.
      apply Nat.eqb_neq in H3. rewrite H3 in H.
      inv_ok H.
      apply (f_equal (fun r : result (gmap string pyval) =>
                        match r with Ok m => m !! "solved" | Raise _ => None end)) in H.
      rewrite lookup_insert_eq in H. discriminate H.
Qed.

(** X20: on a valid report of five lines with a unit of the table, the
    record holds the position and the rotation as [float] reads them, the
    stripped lines, the inversion flag of the second line and the three
    parts of the file name that ends the first line. *)
Theorem parse_txt_fields (l1 l2 l3 l4 l5 : string) (ra dec w h : R) (us : string)
    (rt k : R) :
  valid_report float [l1; l2; l3; l4; l5] ra dec w h us rt ->
  per_degree us = Some k ->
  exists (rec : gmap string pyval) (f t_inv : string),
    parse_txt float [l1; l2; l3; l4; l5] = Ok rec /\
    token l1 (-1) = Ok f /\ token l2 0 = Ok t_inv /\
    rec !! "ra" = Some (VFloat ra) /\
    rec !! "dec" = Some (VFloat dec) /\
    rec !! "rt" = Some (VFloat rt) /\
    rec !! "inverted" =
      Some (VBool (String.eqb (py_slice (Some 1%Z) None t_inv) "inverted")) /\
    rec !! "bibcode" = Some (dict_get (parse_filename f) "bibcode") /\
    rec !! "page" = Some (dict_get (parse_filename f) "page") /\
    rec !! "figN" = Some (dict_get (parse_filename f) "figN") /\
    rec !! "txt" = Some (VList (map strip [l1; l2; l3; l4; l5])).
Proof.
  intros [Hpre (m5 & t_rt & Hl5 & Ht & Hrt)] Hk.
  injection Hl5 as <-.
  apply parse_txt_prefix in Hpre as (f & t_inv & Hf & Hinv & ->).
  rewrite u_per_degree, Hk, Ht. cbn [mbind result_bind].
  rewrite (py_float_some _ _ _ Hrt). cbn [mbind result_bind].
  eexists _, f, t_inv. split; [reflexivity |]. repeat split; assumption.
Qed.

End MoreParser.

Lemma parse_txt_result_shape_witness :
  (length sample_report = 3%nat /\ sample_txt true = unsolved) \/
  ((5 <= length sample_report)%nat /\ solved_record (sample_txt true)).
Proof.
  apply (parse_txt_result_shape decimal_float sample_report (sample_txt true)).
  reflexivity.
Defined.

Lemma parse_txt_fields_witness :
  exists (rec : gmap string pyval) (f t_inv : string),
    parse_txt decimal_float sample_report = Ok rec /\
    token "testing image: 2010Ciel...72..113N-002-002.ppm" (-1) = Ok f /\
    token "#non-inverted image solved without SIMBAD coordinates in 613.357455015 seconds" 0
      = Ok t_inv /\
    rec !! "ra" = Some (VFloat (567 / 10)) /\
    rec !! "dec" = Some (VFloat (2415 / 100)) /\
    rec !! "rt" = Some (VFloat (-179411 / 1000)) /\
    rec !! "inverted" =
      Some (VBool (String.eqb (py_slice (Some 1%Z) None t_inv) "inverted")) /\
    rec !! "bibcode" = Some (dict_get (parse_filename f) "bibcode") /\
    rec !! "page" = Some (dict_get (parse_filename f) "page") /\
    rec !! "figN" = Some (dict_get (parse_filename f) "figN") /\
    rec !! "txt" = Some (VList (map strip sample_report)).
Proof.
  apply (parse_txt_fields decimal_float _ _ _ _ _
           (567 / 10) (2415 / 100) (814539 / 10000) (591175 / 10000) "arcminutes"
           (-179411 / 1000) 60).
  - apply sample_report_valid.
  - reflexivity.
Defined.

(** ** More on [cd2cd] *)

Lemma radians_turn (theta : R) : radians (theta + 360) = (radians theta + 2 * PI)%R.
Proof. unfold radians. field. Qed.

(** X21: without rotation the direct form is the diagonal matrix of the two
    scales. *)
Theorem cd2cd_no_rotation (sx sy : R) :
  cd2cd sx sy 0 "cd" = Some (Mat (Finite sx) (Finite 0) (Finite 0) (Finite sy)).
Proof.
  unfold cd2cd. cbn -[cos sin radians].
  assert (E : radians 0 = 0%R) by (unfold radians; field).
  rewrite E, cos_0, sin_0. do 2 f_equal; f_equal; ring.
Qed.

(** X22: for scales that are not zero the normalized form does not depend
    on them: it is the rotation matrix of the angle, of determinant one. *)
Theorem cd2cd_pc_is_rotation (sx sy theta : R) :
  sx <> 0%R -> sy <> 0%R ->
  exists c s : R,
    cd2cd sx sy theta "pc" = Some (Mat (Finite c) (Finite s) (Finite (- s)) (Finite c)) /\
    c = cos (radians theta) /\ s = sin (radians theta) /\
    (c * c - s * - s = 1)%R.
Proof.
  intros Hx Hy. exists (cos (radians theta)), (sin (radians theta)).
  split; [| split; [reflexivity | split; [reflexivity |]]].
  - rewrite cd2cd_pc_entries by assumption. do 2 f_equal; f_equal; field; assumption.
  - pose proof (sin2_cos2 (radians theta)) as H. unfold Rsqr in H. lra.
Qed.

Lemma cd2cd_pc_is_rotation_witness :
  exists c s : R,
    cd2cd 2 3 30 "pc" = Some (Mat (Finite c) (Finite s) (Finite (- s)) (Finite c)) /\
    c = cos (radians 30) /\ s = sin (radians 30) /\
    (c * c - s * - s = 1)%R.
Proof. apply (cd2cd_pc_is_rotation 2 3 30); lra. Defined.

(** X23: a scale of zero raises nothing: the row of the normalized form
    that is divided by it holds non-finite values, and the direct form
    holds zeros in this row. *)
Theorem cd2cd_zero_scale (sy theta : R) :
  exists P M : matrix,
    cd2cd 0 sy theta "pc" = Some P /\
    mget 0 0 P = NonFinite /\ mget 0 1 P = NonFinite /\
    cd2cd 0 sy theta "cd" = Some M /\
    mget 0 0 M = Finite 0 /\ mget 0 1 M = Finite 0.
Proof.
  eexists. eexists. split; [reflexivity |].
  cbn -[cos sin radians np_div]. split; [apply np_div_zero |]. split; [apply np_div_zero |].
  split; [reflexivity |]. cbn -[cos sin radians].
  split; f_equal; ring.
Qed.

(** X24: a full turn changes nothing: the angles [theta] and [theta + 360]
    give the same matrix, in both forms. *)
Theorem cd2cd_full_turn (cdelt1 cdelt2 theta : R) (ret : string) :
  cd2cd cdelt1 cdelt2 (theta + 360) ret = cd2cd cdelt1 cdelt2 theta ret.
Proof.
  unfold cd2cd. cbv zeta.
  rewrite radians_turn, cos_plus, sin_plus, cos_2PI, sin_2PI.
  replace (cos (radians theta) * 1 - sin (radians theta) * 0)%R
    with (cos (radians theta)) by ring.
  replace (sin (radians theta) * 1 + cos (radians theta) * 0)%R
    with (sin (radians theta)) by ring.
  reflexivity.
Qed.

(** ** More on [build_hdr] *)

Section MoreBuilder.

Variable wcs_error : wcs -> option exn.
Variable str_float : R -> string.

(** X25: for image dimensions that are not zero and a record with the
    position, the field size and the rotation of a solved report,
    [build_hdr] fills a WCS object with the tangent-plane axis types,
    degrees as units, the position of the record as reference value, the
    field size divided by the image size as pixel scale, and the normalized
    form of [cd2cd] for this scale and the rotation of the record; a header
    that it returns is the header of this object. *)
Theorem build_hdr_wcs_fields (today : string) (img txt : gmap string pyval) (w h : Z)
    (ra dec xs ys rt : R) :
  image_dims img w h -> w <> 0%Z -> h <> 0%Z ->
  txt !! "ra" = Some (VFloat ra) -> txt !! "dec" = Some (VFloat dec) ->
  txt !! "xs" = Some (VFloat xs) -> txt !! "ys" = Some (VFloat ys) ->
  txt !! "rt" = Some (VFloat rt) ->
  exists W : wcs,
    build_wcs img txt = Ok W /\
    ctype W = ("RA---TAN", "DEC--TAN") /\
    cunit W = ("deg", "deg") /\
    crval W = (ra, dec) /\
    cdelt W = ((xs / IZR w)%R, (ys / IZR h)%R) /\
    cd2cd (xs / IZR w) (ys / IZR h) rt "pc" = Some (pc W) /\
    forall hdr : header,
      build_hdr wcs_error str_float today img txt = Ok hdr -> hdr_wcs hdr = W.
Proof.
  intros Hdims Hw Hh Hra Hdec Hxs Hys Hrt.
  destruct (build_wcs_ok img txt w h ra dec xs ys rt) as (P & HP & HW); try assumption.
  eexists. split; [exact HW |]. cbn [ctype cunit crval cdelt pc].
  repeat split; try assumption.
  intros hdr Hb.
  apply build_hdr_inv in Hb as (W' & _ & _ & _ & _ & HW' & _ & Hhw & _).
  rewrite HW in HW'. injection HW' as <-. exact Hhw.
Qed.


End MoreBuilder.

Lemma build_hdr_wcs_fields_witness :
  exists W : wcs,
    build_wcs sample_img (sample_txt true) = Ok W /\
    ctype W = ("RA---TAN", "DEC--TAN") /\
    cunit W = ("deg", "deg") /\
    crval W = ((567 / 10)%R, (2415 / 100)%R) /\
    cdelt W = ((814539 / 10000 / 60 / IZR 1000)%R, (591175 / 10000 / 60 / IZR 800)%R) /\
    cd2cd (814539 / 10000 / 60 / IZR 1000) (591175 / 10000 / 60 / IZR 800)
      (-179411 / 1000) "pc" = Some (pc W) /\
    forall hdr : header,
      build_hdr sample_wcs_error sample_str_float "2013-11-04 12:34:56.789012"
        sample_img (sample_txt true) = Ok hdr -> hdr_wcs hdr = W.
Proof.
  apply (build_hdr_wcs_fields sample_wcs_error sample_str_float
           "2013-11-04 12:34:56.789012" sample_img (sample_txt true)
           1000 800); try reflexivity; try discriminate.
  apply img_dict_dims.
Defined.


(** ** [run] *)

Section RunProperties.

Variable float : string -> option R.
Variable path_exists : string -> bool.
Variable readlines : string -> list string.
Variable parse_img : string -> gmap string pyval.
Variable wcs_error : wcs -> option exn.
Variable str_float : R -> string.

(** X27: when the image or the report is missing, [run] returns the empty
    dictionary after counting the missing files, one or two, and reads
    nothing. *)
Theorem run_missing_files (today f p t : string) :
  run_paths f = (p, t) ->
  path_exists p = false \/ path_exists t = false ->
  exists n : nat,
    run float path_exists readlines parse_img wcs_error str_float today f =
      Ok (RunEmpty n) /\
    n = ((if path_exists p then 0 else 1) + (if path_exists t then 0 else 1))%nat /\
    (1 <= n <= 2)%nat.
Proof.
  intros Hp Hmiss. unfold run. rewrite Hp.
  destruct (path_exists p), (path_exists t); destruct Hmiss as [? | ?]; try discriminate;
    eexists; (split; [reflexivity | split; [reflexivity | simpl; lia]]).
Qed.

(** X28: when both files are there and the report has three lines, [run]
    returns the unsolved record and no header, whatever the image is, also
    an image that could not be read: the builder is not called. *)
Theorem run_unsolved_report (today f p t : string) :
  run_paths f = (p, t) ->
  path_exists p = true -> path_exists t = true ->
  length (readlines t) = 3%nat ->
  run float path_exists readlines parse_img wcs_error str_float today f =
    Ok (RunDict None unsolved (parse_img p)).
Proof.
  intros Hp Hep Het Hlen. unfold run. rewrite Hp, Hep, Het. cbn [Nat.b2n Nat.add Nat.ltb Nat.leb].
  unfold parse_txt. rewrite length_map, Hlen. reflexivity.
Qed.


(** X30: when both files are there and the report is valid with a unit of
    the table, but the image could not be read, so that [parse_img] gave its
    empty dictionary, [run] raises the [KeyError] of the first key that the
    builder reads in it. *)
Theorem run_image_unreadable (today f p t : string) (ra dec w h : R) (us : string)
    (rt k : R) :
  run_paths f = (p, t) ->
  path_exists p = true -> path_exists t = true ->
  valid_report float (readlines t) ra dec w h us rt ->
  per_degree us = Some k ->
  parse_img p = ∅ ->
  run float path_exists readlines parse_img wcs_error str_float today f =
    Raise (KeyError "xs").
Proof.
  intros Hp Hep Het [Hpre (m5 & t_rt & Hl5 & Ht & Hrt)] Hk Himg.
  pose proof Hpre as (l1 & l2 & l3 & l4 & l5 & _ & _ & _ & _ & Hlines & _).
  rewrite Hlines in Hpre, Hl5. injection Hl5 as <-.
  apply parse_txt_prefix in Hpre as (fn & t_inv & _ & _ & Hparse).
  rewrite u_per_degree, Hk, Ht in Hparse. cbn [mbind result_bind] in Hparse.
  rewrite (py_float_some _ _ _ Hrt) in Hparse. cbn [mbind result_bind] in Hparse.
  unfold run. rewrite Hp, Hep, Het. cbn [Nat.b2n Nat.add Nat.ltb Nat.leb].
  rewrite Hlines, Hparse, Himg. cbn [mbind result_bind].
  unfold run_hdr.
  match goal with
  | |- context [getitem ?r "solved"] =>
      change (getitem r "solved") with (Ok (VBool true))
  end.
  reflexivity.
Qed.

End RunProperties.

Lemma run_missing_files_witness :
  exists n : nat,
    run decimal_float (fun _ => false) (fun _ => sample_report) (fun _ => sample_img)
      sample_wcs_error sample_str_float
      "2013-11-04 12:34:56.789012" "m.png" = Ok (RunEmpty n) /\
    n = ((if false then 0 else 1) + (if false then 0 else 1))%nat /\
    (1 <= n <= 2)%nat.
Proof.
  apply (run_missing_files decimal_float (fun _ => false) (fun _ => sample_report)
           (fun _ => sample_img) sample_wcs_error sample_str_float
           "2013-11-04 12:34:56.789012" "m.png" "m.png" "m.txt").
  - reflexivity.
  - left. reflexivity.
Defined.

Lemma run_unsolved_report_witness :
  run decimal_float (fun _ => true) (fun _ => ["testing image: m.ppm"; "#failed"; ""])
    (fun _ => ∅) sample_wcs_error sample_str_float
    "2013-11-04 12:34:56.789012" "m.png" =
    Ok (RunDict None unsolved ∅).
Proof.
  apply (run_unsolved_report decimal_float (fun _ => true)
           (fun _ => ["testing image: m.ppm"; "#failed"; ""]) (fun _ => ∅)
           sample_wcs_error sample_str_float
           "2013-11-04 12:34:56.789012" "m.png" "m.png" "m.txt"); reflexivity.
Defined.


Lemma run_image_unreadable_witness :
  run decimal_float (fun _ => true) (fun _ => sample_report) (fun _ => ∅)
    sample_wcs_error sample_str_float
    "2013-11-04 12:34:56.789012" "m.png" = Raise (KeyError "xs").
Proof.
  apply (run_image_unreadable decimal_float (fun _ => true) (fun _ => sample_report)
           (fun _ => ∅) sample_wcs_error sample_str_float
           "2013-11-04 12:34:56.789012" "m.png" "m.png" "m.txt"
           (567 / 10) (2415 / 100) (814539 / 10000) (591175 / 10000) "arcminutes"
           (-179411 / 1000) 60); try reflexivity.
  apply sample_report_valid.
Defined.
